(** * OTP service: the in-memory OTP cache, the code generator and the
      two HTTP handlers, embedded from [backend] (package of
      [MemoryOTPCache]) and from [main] ([generateOTP], [validateOTP],
      [generateSecureOTP]).

    Modelling conventions.
    - [time.Time] is an instant on one clock line, counted in nanoseconds
      as a [Z]; [time.Duration] is a [Z] number of nanoseconds.  Every
      function that calls [time.Now()] takes the value read as its
      argument [now].
    - The Go map [map[string]otpEntry] is a [gmap string otpEntry].
    - Every cache method runs under [c.mu.Lock()]; the methods are embedded
      as atomic state transformers on the table.
    - A Go [error] result is an [option error]; [None] is [nil]. *)

From Stdlib Require Import ZArith String Ascii.
From Stdlib.Strings Require Import Byte.
From stdpp Require Import base decidable option list list_numbers gmap strings.

Local Open Scope Z_scope.

(** ** package time *)

Module time.
Definition Time : Type := Z.
Definition Duration : Type := Z.

Definition Nanosecond : Duration := 1.
Definition Second : Duration := 1000000000 * Nanosecond.
Definition Minute : Duration := 60 * Second.

(** [t.Add(d)] *)
Definition Add (t : Time) (d : Duration) : Time := t + d.

(** [t.After(u)] reports whether the instant [t] is after [u]. *)
Definition After (t u : Time) : bool := u <? t.
End time.

(** ** package backend *)

Module backend.

(** [errors.New] values are compared by identity in [validateOTP]'s
    [switch err]; the two public errors are constructors of their own and
    every other error value is an [ErrOther]. *)
Inductive error : Type :=
| ErrOTPExpired
| ErrOTPNotFound
| ErrOther (msg : string).

Definition otpExpiration : time.Duration := 5 * time.Minute.

Record otpEntry : Type := mkEntry {
  otp : string;
  expiresAt : time.Time
}.

(** [OTPCache] is the interface of OTP storage operations; [C] is the
    state of the receiver.  A method takes the state and returns the new
    state with its results. *)
Class OTPCache (C : Type) : Type := {
  SetOTP : time.Time → string → string → C → C * option error;
  GetOTP : time.Time → string → C → C * (string * option error);
  DeleteOTP : string → C → C * option error
}.

(** [MemoryOTPCache]: the table guarded by [mu]. *)
Record MemoryOTPCache : Type := mkCache {
  store : gmap string otpEntry
}.

Definition NewMemoryOTPCache : MemoryOTPCache := mkCache ∅.

Definition MemSetOTP (now : time.Time) (phone otp : string)
    (c : MemoryOTPCache) : MemoryOTPCache * option error :=
  (mkCache (<[phone := mkEntry otp (time.Add now otpExpiration)]> (store c)),
   None).

Definition MemGetOTP (now : time.Time) (phone : string)
    (c : MemoryOTPCache) : MemoryOTPCache * (string * option error) :=
  match store c !! phone with
  | None => (c, (""%string, Some ErrOTPNotFound))
  | Some entry =>
      if time.After now (expiresAt entry)
      then (mkCache (delete phone (store c)), (""%string, Some ErrOTPExpired))
      else (c, (otp entry, None))
  end.

Definition MemDeleteOTP (phone : string)
    (c : MemoryOTPCache) : MemoryOTPCache * option error :=
  (mkCache (delete phone (store c)), None).

#[export] Instance MemoryOTPCache_OTPCache : OTPCache MemoryOTPCache := {
  SetOTP := MemSetOTP;
  GetOTP := MemGetOTP;
  DeleteOTP := MemDeleteOTP
}.

(** One iteration of the body of [for range ticker.C] in [cleanup]: the
    inner [for phone, entry := range c.store] visits the entries in the
    order [order] (Go leaves the order of a map range unspecified) and
    deletes the expired ones from the table. *)
Definition sweep_entries (now : time.Time)
    (order : list (string * otpEntry))
    (m : gmap string otpEntry) : gmap string otpEntry :=
  foldl (λ m pe, if time.After now (expiresAt pe.2) then delete pe.1 m else m)
        m order.

Definition cleanup_pass (now : time.Time) (order : list (string * otpEntry))
    (c : MemoryOTPCache) : MemoryOTPCache :=
  mkCache (sweep_entries now order (store c)).

(** A visiting order of a table: each entry of the table once. *)
Definition range_order (m : gmap string otpEntry)
    (order : list (string * otpEntry)) : Prop :=
  order ≡ₚ map_to_list m.

End backend.

(** ** package strconv *)

Module strconv.

(** The digit character ['0' + d]. *)
Definition digit (d : Z) : ascii := ascii_of_nat (Z.to_nat (48 + d)).

(** Decimal digits of a non-negative [u], most significant first, pushed in
    front of [acc].  An [int] has at most 19 decimal digits; [Itoa] starts
    the loop with fuel 20. *)
Fixpoint formatBits (fuel : nat) (u : Z) (acc : string) : string :=
  match fuel with
  | O => acc
  | S fuel' =>
      if u <? 10 then String (digit u) acc
      else formatBits fuel' (u / 10) (String (digit (u mod 10)) acc)
  end.

(** [strconv.Itoa(i)]: the decimal text of [i], with a leading [-] when
    negative. *)
Definition Itoa (i : Z) : string :=
  if i <? 0 then String "-"%char (formatBits 20 (- i) EmptyString)
  else formatBits 20 i EmptyString.

End strconv.

(** ** Format of a code: four ASCII digits, value in 1000..9999 *)

Definition is_ascii_digit (c : ascii) : bool :=
  let n := Z.of_nat (nat_of_ascii c) in (48 <=? n) && (n <=? 57).

Fixpoint decimal_value (acc : Z) (s : string) : Z :=
  match s with
  | EmptyString => acc
  | String c s' => decimal_value (10 * acc + (Z.of_nat (nat_of_ascii c) - 48)) s'
  end.

Fixpoint all_chars (p : ascii → bool) (s : string) : bool :=
  match s with
  | EmptyString => true
  | String c s' => p c && all_chars p s'
  end.

Definition four_digit_code (s : string) : bool :=
  (Nat.eqb (String.length s) 4) && all_chars is_ascii_digit s
  && (1000 <=? decimal_value 0 s) && (decimal_value 0 s <=? 9999).

(** ** package main *)

Module main.

Import backend.

(** *** The code generator *)

Definition byte_val (b : byte) : Z := Z.of_N (Byte.to_N b).

(** [binary.BigEndian.Uint16(b[:])] on the two bytes [b0 b1]:
    [uint16(b[1]) | uint16(b[0])<<8]. *)
Definition Uint16 (b : byte * byte) : Z :=
  Z.lor (byte_val b.2) (Z.shiftl (byte_val b.1) 8).

(** The number behind the code on the crypto path:
    [int(binary.BigEndian.Uint16(b[:]) % 9000) + 1000]. *)
Definition secure_num (b : byte * byte) : Z := Uint16 b `mod` 9000 + 1000.

(** [generateSecureOTP].  [crand_Read] is what [crand.Read(b[:])] gave:
    [Some b] the two bytes read, [None] an error.  [fallback_Intn] is the
    value [fallbackRand.Intn(9000)] returns when it is called. *)
Definition generateSecureOTP (crand_Read : option (byte * byte))
    (fallback_Intn : Z) : string :=
  match crand_Read with
  | None => strconv.Itoa (1000 + fallback_Intn)
  | Some b => strconv.Itoa (secure_num b)
  end.

(** All values of a byte, and all two-byte reads. *)
Definition all_bytes : list byte :=
  omap (λ n, Byte.of_N (Z.to_N n)) (seqZ 0 256).

Definition all_reads : list (byte * byte) :=
  b0 ← all_bytes; b1 ← all_bytes; [(b0, b1)].

(** The reads that [secure_num] sends to the code [n]. *)
Definition preimages (n : Z) : list (byte * byte) :=
  filter (λ b, secure_num b = n) all_reads.

(** *** HTTP responses *)

Definition StatusOK : Z := 200.
Definition StatusBadRequest : Z := 400.
Definition StatusNotFound : Z := 404.
Definition StatusInternalServerError : Z := 500.

(** A value in a [gin.H]. *)
Inductive jval : Type :=
| JBool (b : bool)
| JString (s : string).

#[export] Instance jval_eq_dec : EqDecision jval.
Proof. solve_decision. Defined.

(** [c.JSON(code, obj)] *)
Record response : Type := JSON {
  code : Z;
  obj : gmap string jval
}.

Record OTPRequest : Type := mkOTPRequest { Phone : string }.

Record ValidateOTPRequest : Type := mkValidateOTPRequest {
  vOtp : string;
  vPhone : string
}.

Record CreateMessageParams : Type := mkParams {
  To : string;
  From : string;
  Body : string
}.

(** [err.Error()] *)
Definition Error (e : error) : string :=
  match e with
  | ErrOTPExpired => "OTP expired"
  | ErrOTPNotFound => "OTP not found"
  | ErrOther msg => msg
  end.

(** *** Handlers

    A handler runs on the cache and leaves a trace of the calls it made to
    its collaborators, oldest first. *)

Inductive event : Type :=
| EvCreateMessage (params : CreateMessageParams)
| EvSetOTP (phone otp : string)
| EvGetOTP (phone : string)
| EvDeleteOTP (phone : string)
| EvLogPrintf (msg : string).

Section handlers.
Context {C : Type} `{!OTPCache C}.

Record world : Type := mkWorld {
  otpCache : C;
  trace : list event
}.

Definition handler (A : Type) : Type := world → A * world.

#[local] Instance handler_ret : MRet handler := λ A a w, (a, w).
#[local] Instance handler_bind : MBind handler :=
  λ A B f m w, let '(a, w') := m w in f a w'.

Definition emit (e : event) : handler unit :=
  λ w, (tt, mkWorld (otpCache w) (trace w ++ [e])).

Definition callSetOTP (now : time.Time) (phone otp : string)
    : handler (option error) :=
  λ w, let '(c', err) := SetOTP now phone otp (otpCache w) in
       (err, mkWorld c' (trace w ++ [EvSetOTP phone otp])).

Definition callGetOTP (now : time.Time) (phone : string)
    : handler (string * option error) :=
  λ w, let '(c', r) := GetOTP now phone (otpCache w) in
       (r, mkWorld c' (trace w ++ [EvGetOTP phone])).

Definition callDeleteOTP (phone : string) : handler (option error) :=
  λ w, let '(c', err) := DeleteOTP phone (otpCache w) in
       (err, mkWorld c' (trace w ++ [EvDeleteOTP phone])).

(** What a request to [generateOTP] meets outside the cache: the clock,
    the two random sources, the environment variable and the answer of
    [twilioClient.Api.CreateMessage] ([None] is a [nil] error, [Some msg]
    an error with text [msg]). *)
Record outside : Type := mkOutside {
  Now : time.Time;
  crand_Read : option (byte * byte);
  fallback_Intn : Z;
  TWILLIO_PHONE : string;
  CreateMessage : CreateMessageParams → option string
}.

(** [generateOTP].  [bind] is the result of [c.ShouldBindJSON(&req)]:
    [inl msg] an error, [inr req] the bound request. *)
Definition generateOTP (bind : string + OTPRequest) (o : outside)
    : handler response :=
  match bind with
  | inl msg => mret (JSON StatusBadRequest {[ "error" := JString msg ]})
  | inr req =>
      let otp := generateSecureOTP (crand_Read o) (fallback_Intn o) in
      let formattedPhone :=
        if negb (String.prefix "+" (Phone req))
        then "+" +:+ Phone req else Phone req in
      let params :=
        mkParams formattedPhone (TWILLIO_PHONE o) ("Your OTP is: " +:+ otp) in
      _ ← emit (EvCreateMessage params);
      match CreateMessage o params with
      | Some msg =>
          mret (JSON StatusInternalServerError
                  {[ "error" := JString ("Failed to send OTP: " +:+ msg) ]})
      | None =>
          err ← callSetOTP (Now o) (Phone req) otp;
          match err with
          | Some _ =>
              mret (JSON StatusInternalServerError
                      {[ "error" := JString "Failed to store OTP" ]})
          | None =>
              mret (JSON StatusOK
                      {[ "message" := JString "OTP sent successfully" ]})
          end
      end
  end.

(** [validateOTP] *)
Definition validateOTP (bind : string + ValidateOTPRequest) (now : time.Time)
    : handler response :=
  match bind with
  | inl msg =>
      mret (JSON StatusBadRequest
              {[ "valid" := JBool false; "error" := JString msg ]})
  | inr req =>
      r ← callGetOTP now (vPhone req);
      match r.2 with
      | Some err =>
          match err with
          | ErrOTPExpired =>
              mret (JSON StatusBadRequest
                      {[ "valid" := JBool false;
                         "error" := JString "OTP has expired" ]})
          | ErrOTPNotFound =>
              mret (JSON StatusNotFound
                      {[ "valid" := JBool false;
                         "error" := JString "OTP not found" ]})
          | _ =>
              mret (JSON StatusInternalServerError
                      {[ "valid" := JBool false;
                         "error" := JString "Internal server error" ]})
          end
      | None =>
          if negb (String.eqb r.1 (vOtp req))
          then mret (JSON StatusOK
                       {[ "valid" := JBool false;
                          "error" := JString "OTP is incorrect" ]})
          else
            err ← callDeleteOTP (vPhone req);
            _ ← match err with
                | Some e =>
                    emit (EvLogPrintf
                            ("Failed to delete OTP from cache: " +:+ Error e))
                | None => mret tt
                end;
            mret (JSON StatusOK {[ "valid" := JBool true ]})
      end
  end.

(** [validateOTP] holds the lock of the cache inside [GetOTP] and inside
    [DeleteOTP] only; each request runs in a goroutine of its own, so
    between the two calls another request can run.  The handler, cut at
    that point.  [validateOTP_lookup] is the handler up to the comparison
    of the codes: [inl] the response when it returns there, [inr] the
    request when the codes are equal and [DeleteOTP] is still to come. *)
Definition validateOTP_lookup (bind : string + ValidateOTPRequest)
    (now : time.Time) : handler (response + ValidateOTPRequest) :=
  match bind with
  | inl msg =>
      mret (inl (JSON StatusBadRequest
                   {[ "valid" := JBool false; "error" := JString msg ]}))
  | inr req =>
      r ← callGetOTP now (vPhone req);
      match r.2 with
      | Some err =>
          match err with
          | ErrOTPExpired =>
              mret (inl (JSON StatusBadRequest
                           {[ "valid" := JBool false;
                              "error" := JString "OTP has expired" ]}))
          | ErrOTPNotFound =>
              mret (inl (JSON StatusNotFound
                           {[ "valid" := JBool false;
                              "error" := JString "OTP not found" ]}))
          | _ =>
              mret (inl (JSON StatusInternalServerError
                           {[ "valid" := JBool false;
                              "error" := JString "Internal server error" ]}))
          end
      | None =>
          if negb (String.eqb r.1 (vOtp req))
          then mret (inl (JSON StatusOK
                            {[ "valid" := JBool false;
                               "error" := JString "OTP is incorrect" ]}))
          else mret (inr req)
      end
  end.

(** The rest of [validateOTP] after the codes were found equal. *)
Definition validateOTP_consume (req : ValidateOTPRequest) : handler response :=
  err ← callDeleteOTP (vPhone req);
  _ ← match err with
      | Some e =>
          emit (EvLogPrintf ("Failed to delete OTP from cache: " +:+ Error e))
      | None => mret tt
      end;
  mret (JSON StatusOK {[ "valid" := JBool true ]}).

(** The rest of a request after [validateOTP_lookup]. *)
Definition validateOTP_rest (r : response + ValidateOTPRequest)
    : handler response :=
  match r with
  | inl resp => mret resp
  | inr req => validateOTP_consume req
  end.

(** Two validation requests A and B that overlap: both do their [GetOTP]
    before either does its [DeleteOTP]. *)
Definition validateOTP_overlapped (bindA bindB : string + ValidateOTPRequest)
    (nowA nowB : time.Time) : handler (response * response) :=
  a ← validateOTP_lookup bindA nowA;
  b ← validateOTP_lookup bindB nowB;
  respA ← validateOTP_rest a;
  respB ← validateOTP_rest b;
  mret (respA, respB).

End handlers.

(** The message [generateOTP] hands to [twilioClient.Api.CreateMessage] for
    the bound request [req]: the [params] of the handler. *)
Definition sms_params (req : OTPRequest) (o : outside) : CreateMessageParams :=
  mkParams
    (if negb (String.prefix "+" (Phone req))
     then "+" +:+ Phone req else Phone req)
    (TWILLIO_PHONE o)
    ("Your OTP is: "
       +:+ generateSecureOTP (crand_Read o) (fallback_Intn o)).

(** *** Outcomes of a validation

    The five outcomes of the validation protocol, read off the branches of
    [validateOTP] after the request is bound: what [GetOTP] answered, and
    whether the stored code equals the submitted one. *)

Inductive outcome : Type :=
| Valid
| Incorrect
| NotFound
| Expired
| InternalError.

Definition outcome_of (got : string * option error) (submitted : string)
    : outcome :=
  match got.2 with
  | Some ErrOTPExpired => Expired
  | Some ErrOTPNotFound => NotFound
  | Some (ErrOther _) => InternalError
  | None => if String.eqb got.1 submitted then Valid else Incorrect
  end.

(** The response [validateOTP] writes on each outcome. *)
Definition signal (o : outcome) : response :=
  match o with
  | Valid => JSON StatusOK {[ "valid" := JBool true ]}
  | Incorrect =>
      JSON StatusOK
        {[ "valid" := JBool false; "error" := JString "OTP is incorrect" ]}
  | NotFound =>
      JSON StatusNotFound
        {[ "valid" := JBool false; "error" := JString "OTP not found" ]}
  | Expired =>
      JSON StatusBadRequest
        {[ "valid" := JBool false; "error" := JString "OTP has expired" ]}
  | InternalError =>
      JSON StatusInternalServerError
        {[ "valid" := JBool false; "error" := JString "Internal server error" ]}
  end.

(** A cache behind the interface whose [GetOTP] answers the fixed result
    [got]; it keeps no state. *)
Definition stubCache (got : string * option error) : OTPCache unit := {|
  SetOTP := λ _ _ _ c, (c, None);
  GetOTP := λ _ _ c, (c, got);
  DeleteOTP := λ _ c, (c, None)
|}.

(** *** The service on the in-memory cache

    What can touch the table of the process: the two routes and a tick of
    the cleanup goroutine.  A tick carries the order in which its range
    loop visits the entries. *)

Inductive request : Type :=
| PostOTP (bind : string + OTPRequest) (o : outside)
| PostOTPValidate (bind : string + ValidateOTPRequest) (now : time.Time)
| Tick (now : time.Time) (order : list (string * otpEntry)).

Definition serve (c : MemoryOTPCache) (r : request) : MemoryOTPCache :=
  match r with
  | PostOTP bind o => otpCache (generateOTP bind o (mkWorld c [])).2
  | PostOTPValidate bind now => otpCache (validateOTP bind now (mkWorld c [])).2
  | Tick now order => cleanup_pass now order c
  end.

(** [r] issues a code for [phone]: a bound issuance request for [phone]
    whose message was delivered, the only request that calls [SetOTP]. *)
Definition issues (phone : string) (r : request) : Prop :=
  match r with
  | PostOTP (inr req) o =>
      Phone req = phone ∧ CreateMessage o (sms_params req o) = None
  | _ => False
  end.

End main.

(** ** package main of [auth.go]: the handlers over the relational store

    [generateOTP], [login], [logout], [refreshToken] and
    [generateAccessToken] of the service that keeps the code in the user
    row.  The database behind [db] is an interface of the queries the
    handlers make; errors that the handlers ignore ([db.Create],
    [db.Save]) have no result here. *)

Module auth.

Import backend main.

Definition StatusUnauthorized : Z := 401.

(** [User]; of the embedded [gorm.Model] only [ID] is read. *)
Record User : Type := mkUser {
  ID : Z;
  Phone : string;
  Email : string;
  OTP : string;
  RefreshToken : string;
  IsVerified : bool
}.

(** [var user User] *)
Definition zeroUser : User := mkUser 0 "" "" "" "" false.

(** The field [Phone] of [OTPRequest] and the field [Otp] of
    [LoginRequest]. *)
Record OTPRequest : Type := mkOTPRequest { reqPhone : string }.
Record LoginRequest : Type := mkLoginRequest { reqOtp : string }.

(** The queries on [db].  A [First] gives [Some user] when it fills
    [user] and [None] when its [Error] is not nil.  [Create] gives back
    the struct as the call leaves it (the key it assigned). *)
Class UserStore (D : Type) : Type := {
  WherePhoneFirst : string → D → option User;
  WhereRefreshTokenFirst : string → D → option User;
  First : Z → D → option User;
  Create : User → D → D * User;
  Save : User → D → D
}.

(** [c.SetCookie(name, value, maxAge, path, domain, secure, httpOnly)] *)
Record Cookie : Type := mkCookie {
  Name : string;
  Value : string;
  MaxAge : Z;
  Path : string;
  Domain : string;
  Secure : bool;
  HttpOnly : bool
}.

(** An argument of [fmt.Println]: a string, an error (nil or not) or a
    user. *)
Inductive printed : Type :=
| PString (s : string)
| PError (failed : bool)
| PUser (u : User).

Inductive effect : Type :=
| EvPrintln (args : list printed)
| EvSend (params : CreateMessageParams)
| EvSetCookie (c : Cookie).

(** [jwt.MapClaims{"user_id": ..., "exp": ...}] *)
Record Claims : Type := mkClaims {
  user_id : Z;
  exp : Z
}.

Definition Hour : time.Duration := 60 * time.Minute.

(** [t.Unix()]: the seconds since the epoch. *)
Definition Unix (t : time.Time) : Z := t `div` 1000000000.

(** What a request meets outside the database: the clock, the cookies of
    the request ([c.Cookie(name)], [None] when it gives an error), the
    value [c.GetUint("user_id")], the signing of a token
    ([token.SignedString(jwtKey)], [None] when it gives an error), the
    text of [uuid.New()], the value [rand.Intn(9000)] returns, the
    environment variable and the answer of [client.Api.CreateMessage]. *)
Record outside : Type := mkOutside {
  Now : time.Time;
  RequestCookie : string → option string;
  ContextUserID : Z;
  SignedString : Claims → option string;
  NewUUID : string;
  rand_Intn : Z;
  TWILLIO_PHONE : string;
  CreateMessage : CreateMessageParams → option string
}.

(** [generateAccessToken] *)
Definition generateAccessToken (o : outside) (userID : Z) : option string :=
  SignedString o (mkClaims userID (Unix (time.Add (Now o) (Hour * 24)))).

Section handlers.
Context {D : Type} `{!UserStore D}.

(** What a handler leaves: the response, the database and the effects in
    the order they happened. *)
Record reply : Type := mkReply {
  answer : response;
  db : D;
  effects : list effect
}.

(** [generateOTP] of [auth.go] *)
Definition generateOTP (bind : string + OTPRequest) (o : outside) (d : D)
    : reply :=
  match bind with
  | inl msg => mkReply (JSON StatusBadRequest {[ "error" := JString msg ]}) d []
  | inr req =>
      let auth_err := WherePhoneFirst (reqPhone req) d in
      let user := default zeroUser auth_err in
      let prints :=
        [EvPrintln [PString "Error: "; PError (bool_decide (auth_err = None))];
         EvPrintln [PString "User: "; PUser user]] in
      let '(d1, user) :=
        match auth_err with
        | None =>
            Create (mkUser (ID user) (reqPhone req) (Email user) "" "" false) d
        | Some _ => (d, user)
        end in
      let otp := strconv.Itoa (rand_Intn o + 1000) in
      let formattedPhone :=
        if negb (String.prefix "+" (reqPhone req))
        then "+" +:+ reqPhone req else reqPhone req in
      let params :=
        mkParams formattedPhone (TWILLIO_PHONE o) ("Your OTP is: " +:+ otp) in
      match CreateMessage o params with
      | Some msg =>
          mkReply
            (JSON StatusInternalServerError
               {[ "error" := JString ("Failed to send OTP: " +:+ msg) ]})
            d1 (prints ++ [EvSend params])
      | None =>
          let user :=
            mkUser (ID user) (Phone user) (Email user) otp (RefreshToken user)
              (IsVerified user) in
          mkReply
            (JSON StatusOK {[ "message" := JString "OTP sent successfully" ]})
            (Save user d1)
            (prints ++ [EvSend params;
                        EvSetCookie
                          (mkCookie "phone" (reqPhone req) 0 "/" "" false true)])
      end
  end.

Definition invalid_credentials : response :=
  JSON StatusUnauthorized {[ "error" := JString "Invalid credentials" ]}.

(** [login] *)
Definition login (bind : string + LoginRequest) (o : outside) (d : D)
    : reply :=
  match bind with
  | inl msg => mkReply (JSON StatusBadRequest {[ "error" := JString msg ]}) d []
  | inr req =>
      match RequestCookie o "phone" with
      | None => mkReply invalid_credentials d []
      | Some phone =>
          match WherePhoneFirst phone d with
          | None => mkReply invalid_credentials d []
          | Some user =>
              if String.eqb (OTP user) ""
              then mkReply invalid_credentials d []
              else if negb (String.eqb (OTP user) (reqOtp req))
              then mkReply
                     (JSON StatusUnauthorized
                        {[ "error" := JString "Invalid OTP" ]}) d []
              else
                match generateAccessToken o (ID user) with
                | None =>
                    mkReply
                      (JSON StatusInternalServerError
                         {[ "error" := JString "Failed to generate token" ]})
                      d []
                | Some accessToken =>
                    let refreshToken := NewUUID o in
                    let user :=
                      mkUser (ID user) (Phone user) (Email user) ""
                        refreshToken true in
                    mkReply
                      (JSON StatusOK
                         {[ "message" := JString "Login successful" ]})
                      (Save user d)
                      [EvSetCookie
                         (mkCookie "access_token" accessToken
                            (24 * 60 * 60) "/" "" false true);
                       EvSetCookie
                         (mkCookie "refresh_token" refreshToken
                            (30 * 24 * 60 * 60) "/" "" false true)]
                end
          end
      end
  end.

(** [logout] *)
Definition logout (o : outside) (d : D) : reply :=
  match First (ContextUserID o) d with
  | None =>
      mkReply
        (JSON StatusInternalServerError
           {[ "error" := JString "Failed to find user" ]}) d []
  | Some user =>
      let user :=
        mkUser (ID user) (Phone user) (Email user) (OTP user) ""
          (IsVerified user) in
      mkReply
        (JSON StatusOK {[ "message" := JString "Logged out successfully" ]})
        (Save user d)
        [EvSetCookie (mkCookie "access_token" "" (-1) "/" "" true true);
         EvSetCookie (mkCookie "refresh_token" "" (-1) "/" "" true true)]
  end.

(** [refreshToken] *)
Definition refreshToken (o : outside) (d : D) : reply :=
  match RequestCookie o "refresh_token" with
  | None =>
      mkReply
        (JSON StatusBadRequest
           {[ "error" := JString "Refresh token required" ]}) d []
  | Some refreshToken =>
      match WhereRefreshTokenFirst refreshToken d with
      | None =>
          mkReply
            (JSON StatusUnauthorized
               {[ "error" := JString "Invalid refresh token" ]}) d []
      | Some user =>
          match generateAccessToken o (ID user) with
          | None =>
              mkReply
                (JSON StatusInternalServerError
                   {[ "error" := JString "Failed to generate token" ]}) d []
          | Some accessToken =>
              let newRefreshToken := NewUUID o in
              let user :=
                mkUser (ID user) (Phone user) (Email user) (OTP user)
                  newRefreshToken (IsVerified user) in
              mkReply
                (JSON StatusOK
                   {[ "message" := JString "Tokens refreshed successfully" ]})
                (Save user d)
                [EvSetCookie
                   (mkCookie "access_token" accessToken
                      (24 * 60 * 60) "/" "" true true);
                 EvSetCookie
                   (mkCookie "refresh_token" newRefreshToken
                      (30 * 24 * 60 * 60) "/" "" true true)]
          end
      end
  end.

End handlers.

(** The message [generateOTP] hands to [client.Api.CreateMessage] for the
    bound request [req]: the [params] of the handler. *)
Definition sms_params (req : OTPRequest) (o : outside) : CreateMessageParams :=
  mkParams
    (if negb (String.prefix "+" (reqPhone req))
     then "+" +:+ reqPhone req else reqPhone req)
    (TWILLIO_PHONE o)
    ("Your OTP is: " +:+ strconv.Itoa (rand_Intn o + 1000)).

(** A table of user rows in the order of their keys, as a database behind
    the interface: a lookup gives the first row that matches, [Create]
    appends the row under the next key, and [Save] writes the row over the
    one with its key, or appends it when there is none. *)
Definition rows : Type := list User.

Fixpoint save_row (u : User) (t : rows) : rows :=
  match t with
  | [] => [u]
  | v :: t' => if ID v =? ID u then u :: t' else v :: save_row u t'
  end.

Definition rows_UserStore : UserStore rows := {|
  WherePhoneFirst := λ p t, List.find (λ u, String.eqb (Phone u) p) t;
  WhereRefreshTokenFirst :=
    λ rt t, List.find (λ u, String.eqb (RefreshToken u) rt) t;
  First := λ id t, List.find (λ u, ID u =? id) t;
  Create := λ u t,
    let u' := mkUser (Z.of_nat (length t) + 1) (Phone u) (Email u) (OTP u)
                (RefreshToken u) (IsVerified u) in
    (t ++ [u'], u');
  Save := save_row
|}.

End auth.

(** * Properties *)

Import backend main.

(** ** The table operations *)

Section table.
Implicit Types (c : MemoryOTPCache) (m : gmap string otpEntry).
Implicit Types (phone code : string) (now : time.Time) (e : otpEntry).

Lemma After_true t u : time.After t u = true ↔ u < t.
Proof. unfold time.After. apply Z.ltb_lt. Qed.

Lemma After_false t u : time.After t u = false ↔ t ≤ u.
Proof. unfold time.After. rewrite Z.ltb_ge. done. Qed.

Lemma GetOTP_absent now phone c :
  store c !! phone = None →
  GetOTP now phone c = (c, (""%string, Some ErrOTPNotFound)).
Proof. intros Hnone. cbn. unfold MemGetOTP. by rewrite Hnone. Qed.

Lemma GetOTP_live now phone c e :
  store c !! phone = Some e → now ≤ expiresAt e →
  GetOTP now phone c = (c, (otp e, None)).
Proof.
  intros Hsome Hle. cbn. unfold MemGetOTP. rewrite Hsome.
  apply After_false in Hle. by rewrite Hle.
Qed.

Lemma GetOTP_expired now phone c e :
  store c !! phone = Some e → expiresAt e < now →
  GetOTP now phone c
  = (mkCache (delete phone (store c)), (""%string, Some ErrOTPExpired)).
Proof.
  intros Hsome Hlt. cbn. unfold MemGetOTP. rewrite Hsome.
  apply After_true in Hlt. by rewrite Hlt.
Qed.

(** One step of the range loop of [cleanup], seen from a key. *)
Lemma sweep_step_lookup now m (pe : string * otpEntry) phone :
  (if time.After now (expiresAt pe.2) then delete pe.1 m else m) !! phone
  = if bool_decide (pe.1 = phone ∧ time.After now (expiresAt pe.2) = true)
    then None else m !! phone.
Proof.
  destruct (time.After now (expiresAt pe.2)) eqn:Hafter.
  - rewrite lookup_delete. destruct (decide (pe.1 = phone)) as [Heq|Hne].
    + rewrite bool_decide_eq_true_2; done.
    + rewrite bool_decide_eq_false_2; [done|]. intros [? _]. done.
  - rewrite bool_decide_eq_false_2; [done|]. intros [_ ?]. done.
Qed.

(** The loop deletes exactly the keys it meets with an expired entry. *)
Lemma sweep_entries_lookup now order m phone :
  sweep_entries now order m !! phone
  = if bool_decide
         (Exists (λ pe, pe.1 = phone ∧ time.After now (expiresAt pe.2) = true)
                 order)
    then None else m !! phone.
Proof.
  unfold sweep_entries. revert m.
  induction order as [|pe order IH]; intros m; cbn [foldl].
  - case_bool_decide as Hex; [by apply Exists_nil in Hex|done].
  - rewrite IH, sweep_step_lookup.
    repeat case_bool_decide; try done;
      exfalso; rewrite Exists_cons in *; tauto.
Qed.

Lemma sweep_entries_absent now order m phone :
  m !! phone = None → sweep_entries now order m !! phone = None.
Proof. intros Hnone. rewrite sweep_entries_lookup, Hnone. by case_bool_decide. Qed.

End table.

(** ** Set, get and expiry on the table *)

(** C7. [SetOTP(i, c)] returns a nil error on every input, and a
    [GetOTP(i)] that follows it at a time [now] not after the expiry
    [t + otpExpiration] returns [c] and leaves the table as it is.  When a
    second [SetOTP(i, c2)] with another code follows the first, the table
    is the one a single [SetOTP(i, c2)] gives (the old entry is
    overwritten) and a [GetOTP(i)] before the new expiry returns [c2], not
    [c]. *)
Theorem SetOTP_GetOTP (s : MemoryOTPCache) (i c : string) (t : time.Time) :
  (SetOTP t i c s).2 = None
  ∧ (∀ now, now ≤ time.Add t otpExpiration →
       GetOTP now i (SetOTP t i c s).1 = ((SetOTP t i c s).1, (c, None)))
  ∧ (∀ c2 t2 now, c ≠ c2 → now ≤ time.Add t2 otpExpiration →
       let s2 := (SetOTP t2 i c2 (SetOTP t i c s).1).1 in
       (SetOTP t2 i c2 (SetOTP t i c s).1).2 = None
       ∧ s2 = (SetOTP t2 i c2 s).1
       ∧ GetOTP now i s2 = (s2, (c2, None))
       ∧ (GetOTP now i s2).2.1 ≠ c).
Proof.
  split; [done|]. split.
  - intros now Hnow.
    apply (GetOTP_live now i _ (mkEntry c (time.Add t otpExpiration)));
      [apply lookup_insert_eq | done].
  - intros c2 t2 now Hne Hnow s2.
    assert (Hs2 : s2 = (SetOTP t2 i c2 s).1).
    { subst s2. cbn. unfold MemSetOTP. cbn. by rewrite insert_insert_eq. }
    assert (Hget : GetOTP now i s2 = (s2, (c2, None))).
    { rewrite Hs2.
      apply (GetOTP_live now i _ (mkEntry c2 (time.Add t2 otpExpiration)));
        [apply lookup_insert_eq | done]. }
    split_and!; [done | done | done |].
    rewrite Hget. cbn. congruence.
Qed.

(** C1, as the code has it.  For an identifier whose entry is present, a
    [GetOTP] at a time [now] after [expiresAt] ([now > expiresAt], the test
    [time.Now().After(entry.expiresAt)]) deletes the entry and fails with
    [ErrOTPExpired], and a [GetOTP] for the same identifier that follows,
    at any time, fails with [ErrOTPNotFound]; a [GetOTP] at exactly
    [now = expiresAt] returns the stored code and leaves the table as it
    is. *)
Theorem GetOTP_expiry (c : MemoryOTPCache) (phone : string) (e : otpEntry)
    (now : time.Time) :
  store c !! phone = Some e →
  (expiresAt e < now →
     GetOTP now phone c
     = (mkCache (delete phone (store c)), (""%string, Some ErrOTPExpired))
     ∧ ∀ now', GetOTP now' phone (GetOTP now phone c).1
               = ((GetOTP now phone c).1, (""%string, Some ErrOTPNotFound)))
  ∧ (now = expiresAt e → GetOTP now phone c = (c, (otp e, None))).
Proof.
  intros Hsome. split.
  - intros Hlt. rewrite (GetOTP_expired now phone c e Hsome Hlt).
    split; [done|]. intros now'. apply GetOTP_absent. cbn.
    apply lookup_delete_eq.
  - intros ->. by apply GetOTP_live.
Qed.

Lemma GetOTP_expiry_witness :
  let c := (SetOTP 0 "+1555" "1111" NewMemoryOTPCache).1 in
  GetOTP 300000000001 "+1555" c
  = (NewMemoryOTPCache, (""%string, Some ErrOTPExpired))
  ∧ GetOTP 300000000000 "+1555" c = (c, ("1111"%string, None)).
Proof.
  intros c.
  destruct (GetOTP_expiry c "+1555" (mkEntry "1111" 300000000000) 300000000001)
    as [Hexp _]; [reflexivity|].
  destruct (GetOTP_expiry c "+1555" (mkEntry "1111" 300000000000) 300000000000)
    as [_ Hedge]; [reflexivity|].
  split.
  - destruct Hexp as [-> _]; [cbn; lia|]. reflexivity.
  - apply Hedge. reflexivity.
Defined.

(** C1, as stated, fails at the instant [now = expiresAt]: the entry set at
    time 0 expires at 5 minutes, and a [GetOTP] at exactly 5 minutes
    returns the stored code with a nil error and keeps the entry. *)
Lemma GetOTP_at_expiresAt_counterexample :
  let c := (SetOTP 0 "+1555" "1111" NewMemoryOTPCache).1 in
  let now := 300000000000 in
  store c !! "+1555"%string = Some (mkEntry "1111" 300000000000)
  ∧ now >= 300000000000
  ∧ GetOTP now "+1555" c = (c, ("1111"%string, None))
  ∧ (GetOTP now "+1555" c).2.2 ≠ Some ErrOTPExpired
  ∧ store (GetOTP now "+1555" c).1 !! "+1555"%string ≠ None.
Proof.
  intros c now. split_and!; [reflexivity | lia | reflexivity | |].
  - vm_compute. discriminate.
  - vm_compute. discriminate.
Qed.

(** ** The background sweep *)

(** C9. One pass of the sweep of [cleanup], whatever the order in which its
    range loop visits the table: every entry whose [expiresAt] is before
    the time [now] the pass read is gone from the table, every other entry
    is still there with the same code and expiry, and nothing else
    appears.  No [GetOTP] is involved. *)
Theorem cleanup_pass_sweeps (now : time.Time)
    (order : list (string * otpEntry)) (c : MemoryOTPCache) :
  range_order (store c) order →
  (∀ phone e, store c !! phone = Some e → expiresAt e < now →
     store (cleanup_pass now order c) !! phone = None)
  ∧ (∀ phone e, store c !! phone = Some e → now ≤ expiresAt e →
       store (cleanup_pass now order c) !! phone = Some e)
  ∧ (∀ phone, store c !! phone = None →
       store (cleanup_pass now order c) !! phone = None).
Proof.
  unfold range_order. intros Hperm.
  assert (Hin : ∀ phone e, (phone, e) ∈ order ↔ store c !! phone = Some e).
  { intros phone e. rewrite Hperm. apply elem_of_map_to_list. }
  split_and!.
  - intros phone e Hsome Hlt. cbn. rewrite sweep_entries_lookup.
    rewrite bool_decide_eq_true_2; [done|].
    apply Exists_exists. exists (phone, e). split; [by apply Hin|].
    split; [done|]. by apply After_true.
  - intros phone e Hsome Hle. cbn. rewrite sweep_entries_lookup.
    rewrite bool_decide_eq_false_2; [done|].
    intros ([phone' e'] & Hmem & Hkey & Hafter)%Exists_exists.
    cbn in Hkey, Hafter. subst phone'.
    apply Hin in Hmem. rewrite Hsome in Hmem. injection Hmem as <-.
    apply After_true in Hafter. lia.
  - intros phone Hnone. cbn. by apply sweep_entries_absent.
Qed.

Lemma SetOTP_GetOTP_witness :
  let s1 := (SetOTP 0 "+15551234567" "4821" NewMemoryOTPCache).1 in
  let s2 := (SetOTP 7 "+15551234567" "9313" s1).1 in
  GetOTP 1 "+15551234567" s1 = (s1, ("4821"%string, None))
  ∧ GetOTP 8 "+15551234567" s2 = (s2, ("9313"%string, None)).
Proof.
  intros s1 s2.
  destruct (SetOTP_GetOTP NewMemoryOTPCache "+15551234567" "4821" 0)
    as (_ & Hget & Hover).
  split.
  - apply Hget. vm_compute. discriminate.
  - destruct (Hover "9313"%string 7 8) as (_ & _ & Hget2 & _).
    + discriminate.
    + vm_compute. discriminate.
    + exact Hget2.
Defined.

Lemma cleanup_pass_sweeps_witness :
  let c := mkCache (<["+1" := mkEntry "1111" 10]>
                      (<["+2" := mkEntry "2222" 100]> ∅)) in
  let c' := cleanup_pass 50 (map_to_list (store c)) c in
  store c' !! "+1"%string = None
  ∧ store c' !! "+2"%string = Some (mkEntry "2222" 100)
  ∧ store c' !! "+3"%string = None.
Proof.
  intros c c'.
  destruct (cleanup_pass_sweeps 50 (map_to_list (store c)) c)
    as (Hgone & Hkept & Hnone).
  - unfold range_order. reflexivity.
  - split_and!.
    + apply (Hgone "+1"%string (mkEntry "1111" 10)); [reflexivity | cbn; lia].
    + apply (Hkept "+2"%string (mkEntry "2222" 100)); [reflexivity | cbn; lia].
    + apply (Hnone "+3"%string). reflexivity.
Defined.

(** ** The validation handler *)

Section validate.
Context {C : Type} `{!OTPCache C}.

(** [validateOTP] on a bound request, branch by branch. *)
Lemma validateOTP_run (req : ValidateOTPRequest) (now : time.Time)
    (w : world (C:=C)) :
  validateOTP (inr req) now w
  = let got := GetOTP now (vPhone req) (otpCache w) in
    match outcome_of got.2 (vOtp req) with
    | Valid =>
        let del := DeleteOTP (vPhone req) got.1 in
        (signal Valid,
         mkWorld del.1
           (trace w ++ [EvGetOTP (vPhone req); EvDeleteOTP (vPhone req)]
              ++ match del.2 with
                 | Some e =>
                     [EvLogPrintf
                        ("Failed to delete OTP from cache: " +:+ Error e)]
                 | None => []
                 end))
    | o => (signal o, mkWorld got.1 (trace w ++ [EvGetOTP (vPhone req)]))
    end.
Proof.
  unfold validateOTP, outcome_of, mbind, handler_bind, callGetOTP.
  destruct (GetOTP now (vPhone req) (otpCache w)) as [c1 [stored err]].
  cbn [fst snd]. destruct err as [[| |msg]|]; try reflexivity.
  destruct (String.eqb stored (vOtp req)); cbn [negb]; [|reflexivity].
  unfold callDeleteOTP, emit, mret, handler_ret. cbn [otpCache trace].
  destruct (DeleteOTP (vPhone req) c1) as [c2 [e|]];
    cbn [fst snd otpCache trace]; unfold signal;
    by rewrite <- ?(assoc_L (++)), ?app_nil_r.
Qed.

End validate.

Lemma validateOTP_mem_valid (req : ValidateOTPRequest) (now : time.Time)
    (w : world (C:=MemoryOTPCache)) (e : otpEntry) :
  store (otpCache w) !! vPhone req = Some e →
  now ≤ expiresAt e →
  otp e = vOtp req →
  validateOTP (inr req) now w
  = (signal Valid,
     mkWorld (mkCache (delete (vPhone req) (store (otpCache w))))
       (trace w ++ [EvGetOTP (vPhone req); EvDeleteOTP (vPhone req)])).
Proof.
  intros Hsome Hlive Hcode. rewrite validateOTP_run.
  rewrite (GetOTP_live now _ _ e Hsome Hlive). cbn [fst snd].
  unfold outcome_of. cbn [fst snd]. rewrite Hcode, String.eqb_refl.
  reflexivity.
Qed.

Lemma validateOTP_mem_absent (req : ValidateOTPRequest) (now : time.Time)
    (w : world (C:=MemoryOTPCache)) :
  store (otpCache w) !! vPhone req = None →
  validateOTP (inr req) now w
  = (signal NotFound, mkWorld (otpCache w) (trace w ++ [EvGetOTP (vPhone req)])).
Proof.
  intros Hnone. rewrite validateOTP_run.
  by rewrite (GetOTP_absent now _ _ Hnone).
Qed.

Lemma validateOTP_mem_incorrect (req : ValidateOTPRequest) (now : time.Time)
    (w : world (C:=MemoryOTPCache)) (e : otpEntry) :
  store (otpCache w) !! vPhone req = Some e →
  now ≤ expiresAt e →
  otp e ≠ vOtp req →
  validateOTP (inr req) now w
  = (signal Incorrect,
     mkWorld (otpCache w) (trace w ++ [EvGetOTP (vPhone req)])).
Proof.
  intros Hsome Hlive Hcode. rewrite validateOTP_run.
  rewrite (GetOTP_live now _ _ e Hsome Hlive). cbn [fst snd].
  unfold outcome_of. cbn [fst snd].
  apply String.eqb_neq in Hcode. by rewrite Hcode.
Qed.

(** On the in-memory cache a validation leaves the table as it is or
    deletes one key from it. *)
Lemma validateOTP_mem_store (bind : string + ValidateOTPRequest)
    (now : time.Time) (w : world (C:=MemoryOTPCache)) :
  otpCache (validateOTP bind now w).2 = otpCache w
  ∨ ∃ phone, store (otpCache (validateOTP bind now w).2)
             = delete phone (store (otpCache w)).
Proof.
  destruct bind as [msg|req]; [by left|].
  rewrite validateOTP_run. cbn. unfold MemGetOTP.
  destruct (store (otpCache w) !! vPhone req) as [e|]; [|by left].
  destruct (time.After now (expiresAt e)).
  - right. by exists (vPhone req).
  - unfold outcome_of. cbn [fst snd].
    destruct (String.eqb (otp e) (vOtp req)); [|by left].
    right. by exists (vPhone req).
Qed.

(** ** The issuance handler *)

Section issue.
Context {C : Type} `{!OTPCache C}.

(** [generateOTP] on a bound request, branch by branch. *)
Lemma generateOTP_run (req : OTPRequest) (o : outside) (w : world (C:=C)) :
  generateOTP (inr req) o w
  = let otp := generateSecureOTP (crand_Read o) (fallback_Intn o) in
    match CreateMessage o (sms_params req o) with
    | Some msg =>
        (JSON StatusInternalServerError
           {[ "error" := JString ("Failed to send OTP: " +:+ msg) ]},
         mkWorld (otpCache w) (trace w ++ [EvCreateMessage (sms_params req o)]))
    | None =>
        let set := SetOTP (Now o) (Phone req) otp (otpCache w) in
        (match set.2 with
         | Some _ =>
             JSON StatusInternalServerError
               {[ "error" := JString "Failed to store OTP" ]}
         | None =>
             JSON StatusOK {[ "message" := JString "OTP sent successfully" ]}
         end,
         mkWorld set.1
           (trace w ++ [EvCreateMessage (sms_params req o);
                        EvSetOTP (Phone req) otp]))
    end.
Proof.
  unfold generateOTP, mbind, handler_bind, emit, sms_params.
  destruct (CreateMessage o _) as [msg|]; [reflexivity|].
  unfold callSetOTP. cbn [otpCache trace].
  destruct (SetOTP _ _ _ _) as [c' [err|]]; cbn [fst snd];
    by rewrite <- (assoc_L (++)).
Qed.

End issue.

(** C5. In [generateOTP] the message is handed to the delivery channel
    before the cache is written.  When the delivery fails the handler
    answers 500 with the text of the failure, the cache is the one it
    started with, and the only call it made is the send: [SetOTP] is not
    called, for any cache behind the interface.  When the delivery
    succeeds the calls are the send and then [SetOTP] for the phone of the
    request with the code that was sent.  A request that does not bind
    makes no call at all. *)
Theorem generateOTP_send_before_set {C : Type} `{!OTPCache C}
    (req : OTPRequest) (o : outside) (w : world (C:=C)) :
  (∀ msg, CreateMessage o (sms_params req o) = Some msg →
     generateOTP (inr req) o w
     = (JSON StatusInternalServerError
          {[ "error" := JString ("Failed to send OTP: " +:+ msg) ]},
        mkWorld (otpCache w) (trace w ++ [EvCreateMessage (sms_params req o)])))
  ∧ (CreateMessage o (sms_params req o) = None →
       (generateOTP (inr req) o w).2
       = mkWorld
           (SetOTP (Now o) (Phone req)
              (generateSecureOTP (crand_Read o) (fallback_Intn o))
              (otpCache w)).1
           (trace w
              ++ [EvCreateMessage (sms_params req o);
                  EvSetOTP (Phone req)
                    (generateSecureOTP (crand_Read o) (fallback_Intn o))]))
  ∧ (∀ msg, (generateOTP (inl msg) o w).2 = w).
Proof.
  split_and!.
  - intros msg Hfail. by rewrite generateOTP_run, Hfail.
  - intros Hsent. by rewrite generateOTP_run, Hsent.
  - intros msg. by destruct w.
Qed.

(** ** Validation on the in-memory cache *)

(** A request that does not issue a code for [phone] leaves [phone] absent
    when it is absent. *)
Lemma serve_absent (c : MemoryOTPCache) (r : request) (phone : string) :
  ¬ issues phone r →
  store c !! phone = None →
  store (serve c r) !! phone = None.
Proof.
  intros Hnot Hnone. destruct r as [bind o|bind now|now order]; cbn [serve].
  - destruct bind as [msg|req]; [done|]. cbn [issues] in Hnot.
    rewrite generateOTP_run. cbn [otpCache trace].
    destruct (CreateMessage o (sms_params req o)) eqn:Hsend; [done|]. cbn.
    rewrite lookup_insert_ne; [done|]. intros Heq. by apply Hnot.
  - destruct (validateOTP_mem_store bind now (mkWorld c [])) as [->|[p ->]];
      [done|].
    cbn. rewrite lookup_delete. by case_decide.
  - cbn. by apply sweep_entries_absent.
Qed.

Lemma foldl_serve_absent (rs : list request) (c : MemoryOTPCache)
    (phone : string) :
  Forall (λ r, ¬ issues phone r) rs →
  store c !! phone = None →
  store (foldl serve c rs) !! phone = None.
Proof.
  intros Hrs. revert c. induction Hrs as [|r rs Hr _ IH]; intros c Hnone.
  - done.
  - cbn [foldl]. apply IH. by apply serve_absent.
Qed.

(** Requests served one after another.  A validation with the stored code,
    for an identifier whose entry is live ([now] not after [expiresAt]),
    answers Valid and deletes the entry; the same request repeated after
    it, at any time, answers NotFound; and after any sequence of requests
    and sweep ticks, each run to its end before the next starts, in which
    no code is issued for the identifier again, a validation for it, with
    any code, answers NotFound. *)
Theorem validateOTP_single_use (req : ValidateOTPRequest) (now : time.Time)
    (w : world (C:=MemoryOTPCache)) (e : otpEntry) :
  store (otpCache w) !! vPhone req = Some e →
  now ≤ expiresAt e →
  otp e = vOtp req →
  let w1 := (validateOTP (inr req) now w).2 in
  (validateOTP (inr req) now w).1 = signal Valid
  ∧ store (otpCache w1) = delete (vPhone req) (store (otpCache w))
  ∧ (∀ now2, (validateOTP (inr req) now2 w1).1 = signal NotFound)
  ∧ (∀ rs now2 code tr,
       Forall (λ r, ¬ issues (vPhone req) r) rs →
       (validateOTP (inr (mkValidateOTPRequest code (vPhone req))) now2
          (mkWorld (foldl serve (otpCache w1) rs) tr)).1
       = signal NotFound).
Proof.
  intros Hsome Hlive Hcode w1. subst w1.
  rewrite (validateOTP_mem_valid req now w e Hsome Hlive Hcode).
  cbn [fst snd otpCache store]. split_and!; [done | done | |].
  - intros now2. rewrite validateOTP_mem_absent; [done|].
    cbn. apply lookup_delete_eq.
  - intros rs now2 code tr Hrs. rewrite validateOTP_mem_absent; [done|].
    cbn [otpCache vPhone]. apply foldl_serve_absent; [done|].
    cbn. apply lookup_delete_eq.
Qed.

Lemma validateOTP_single_use_witness :
  let c := (SetOTP 0 "+15551234567" "4821" NewMemoryOTPCache).1 in
  let req := mkValidateOTPRequest "4821" "+15551234567" in
  let w1 := (validateOTP (inr req) 1 (mkWorld c [])).2 in
  (validateOTP (inr req) 1 (mkWorld c [])).1 = signal Valid
  ∧ (validateOTP (inr req) 2 w1).1 = signal NotFound.
Proof.
  intros c req w1.
  destruct (validateOTP_single_use req 1 (mkWorld c [])
              (mkEntry "4821" 300000000000))
    as (Hvalid & _ & Hagain & _).
  - reflexivity.
  - cbn. lia.
  - reflexivity.
  - split; [exact Hvalid | exact (Hagain 2)].
Defined.

(** ** Validations that overlap *)

Section overlap.
Context {C : Type} `{!OTPCache C}.

(** The two halves of [validateOTP], run one right after the other, are
    the handler. *)
Lemma validateOTP_lookup_rest (bind : string + ValidateOTPRequest)
    (now : time.Time) (w : world (C:=C)) :
  validateOTP bind now w
  = validateOTP_rest (validateOTP_lookup bind now w).1
      (validateOTP_lookup bind now w).2.
Proof.
  unfold validateOTP, validateOTP_lookup, validateOTP_rest,
    validateOTP_consume, mbind, handler_bind.
  destruct bind as [msg|req]; [reflexivity|].
  destruct (callGetOTP now (vPhone req) w) as [[stored err] w1].
  cbn [fst snd]. destruct err as [[| |msg]|]; try reflexivity.
  by destruct (String.eqb stored (vOtp req)).
Qed.

End overlap.

(** On the in-memory cache: the first half on a live entry with the
    stored code, and the second half. *)
Lemma validateOTP_lookup_match (req : ValidateOTPRequest) (now : time.Time)
    (w : world (C:=MemoryOTPCache)) (e : otpEntry) :
  store (otpCache w) !! vPhone req = Some e →
  now ≤ expiresAt e →
  otp e = vOtp req →
  validateOTP_lookup (inr req) now w
  = (inr req, mkWorld (otpCache w) (trace w ++ [EvGetOTP (vPhone req)])).
Proof.
  intros Hsome Hlive Hcode.
  unfold validateOTP_lookup, mbind, handler_bind, callGetOTP.
  rewrite (GetOTP_live now _ _ e Hsome Hlive). cbn [fst snd].
  by rewrite Hcode, String.eqb_refl.
Qed.

Lemma validateOTP_consume_mem (req : ValidateOTPRequest)
    (w : world (C:=MemoryOTPCache)) :
  validateOTP_consume req w
  = (signal Valid,
     mkWorld (mkCache (delete (vPhone req) (store (otpCache w))))
       (trace w ++ [EvDeleteOTP (vPhone req)])).
Proof. reflexivity. Qed.

(** C3 does not hold on the code when two validations overlap.  The
    handler deletes the entry "to enforce one-time usage", but it reads
    the code under one acquisition of the lock and deletes the entry
    under another.  When two requests for the same identifier, both with
    the stored code of a live entry, do their [GetOTP] before either does
    its [DeleteOTP], both answer Valid: the cache calls are [GetOTP],
    [GetOTP], [DeleteOTP], [DeleteOTP], with no [SetOTP] among them, and
    the code has validated twice. *)
Theorem validateOTP_overlapped_valid_twice (reqA reqB : ValidateOTPRequest)
    (nowA nowB : time.Time) (w : world (C:=MemoryOTPCache)) (e : otpEntry) :
  vPhone reqB = vPhone reqA →
  store (otpCache w) !! vPhone reqA = Some e →
  nowA ≤ expiresAt e →
  nowB ≤ expiresAt e →
  otp e = vOtp reqA →
  otp e = vOtp reqB →
  validateOTP_overlapped (inr reqA) (inr reqB) nowA nowB w
  = ((signal Valid, signal Valid),
     mkWorld (mkCache (delete (vPhone reqA) (store (otpCache w))))
       (trace w ++ [EvGetOTP (vPhone reqA); EvGetOTP (vPhone reqA);
                    EvDeleteOTP (vPhone reqA); EvDeleteOTP (vPhone reqA)])).
Proof.
  intros Hphone Hsome HliveA HliveB HcodeA HcodeB.
  unfold validateOTP_overlapped, mbind, handler_bind.
  rewrite (validateOTP_lookup_match reqA nowA w e Hsome HliveA HcodeA).
  rewrite (validateOTP_lookup_match reqB nowB _ e);
    [|by rewrite Hphone|done..].
  cbn [validateOTP_rest]. rewrite !validateOTP_consume_mem.
  cbn [otpCache trace store mret handler_ret]. rewrite Hphone.
  by rewrite delete_delete_eq, <- !(assoc_L (++)).
Qed.

Lemma validateOTP_overlapped_valid_twice_witness :
  let c := (SetOTP 0 "+15551234567" "4821" NewMemoryOTPCache).1 in
  let req := mkValidateOTPRequest "4821" "+15551234567" in
  validateOTP_overlapped (inr req) (inr req) 1 2 (mkWorld c [])
  = ((signal Valid, signal Valid),
     mkWorld NewMemoryOTPCache
       [EvGetOTP "+15551234567"; EvGetOTP "+15551234567";
        EvDeleteOTP "+15551234567"; EvDeleteOTP "+15551234567"]).
Proof.
  intros c req.
  rewrite (validateOTP_overlapped_valid_twice req req 1 2 (mkWorld c [])
             (mkEntry "4821" 300000000000));
    [reflexivity | reflexivity | reflexivity | cbn; lia | cbn; lia
    | reflexivity | reflexivity].
Defined.

(** C4. A validation of a live entry with a code other than the stored one
    answers Incorrect, calls only [GetOTP] and leaves the cache as it is;
    a validation with the stored code that follows it, at a time not after
    [expiresAt], answers Valid. *)
Theorem validateOTP_incorrect_keeps_entry (req : ValidateOTPRequest)
    (now : time.Time) (w : world (C:=MemoryOTPCache)) (e : otpEntry) :
  store (otpCache w) !! vPhone req = Some e →
  now ≤ expiresAt e →
  otp e ≠ vOtp req →
  validateOTP (inr req) now w
  = (signal Incorrect, mkWorld (otpCache w) (trace w ++ [EvGetOTP (vPhone req)]))
  ∧ (∀ now2, now2 ≤ expiresAt e →
       (validateOTP (inr (mkValidateOTPRequest (otp e) (vPhone req))) now2
          (validateOTP (inr req) now w).2).1
       = signal Valid).
Proof.
  intros Hsome Hlive Hcode.
  rewrite (validateOTP_mem_incorrect req now w e Hsome Hlive Hcode).
  split; [done|]. intros now2 Hlive2.
  by rewrite (validateOTP_mem_valid _ now2 _ e).
Qed.

Lemma validateOTP_incorrect_keeps_entry_witness :
  let c := (SetOTP 0 "+15551234567" "4821" NewMemoryOTPCache).1 in
  let w1 := (validateOTP (inr (mkValidateOTPRequest "1284" "+15551234567")) 1
               (mkWorld c [])).2 in
  otpCache w1 = c
  ∧ (validateOTP (inr (mkValidateOTPRequest "4821" "+15551234567")) 2 w1).1
    = signal Valid.
Proof.
  intros c w1.
  destruct (validateOTP_incorrect_keeps_entry
              (mkValidateOTPRequest "1284" "+15551234567") 1 (mkWorld c [])
              (mkEntry "4821" 300000000000))
    as (Hrun & Hlater).
  - reflexivity.
  - cbn. lia.
  - discriminate.
  - split.
    + subst w1. by rewrite Hrun.
    + apply (Hlater 2). cbn. lia.
Defined.

Lemma generateOTP_send_before_set_witness :
  let o := mkOutside 0 (Some (Byte.x12, Byte.x34)) 0 "+15550000000"
             (λ _, Some "unreachable"%string) in
  let w := mkWorld (C:=MemoryOTPCache) NewMemoryOTPCache [] in
  let r := generateOTP (inr (mkOTPRequest "15551234567")) o w in
  code r.1 = StatusInternalServerError
  ∧ otpCache r.2 = NewMemoryOTPCache
  ∧ trace r.2
    = [EvCreateMessage (mkParams "+15551234567" "+15550000000" "Your OTP is: 5660")].
Proof.
  intros o w r.
  destruct (generateOTP_send_before_set (mkOTPRequest "15551234567") o w)
    as (Hfail & _ & _).
  subst r. rewrite (Hfail "unreachable"%string); [|reflexivity].
  split_and!; reflexivity.
Defined.

(** C8. On a bound request [validateOTP] answers with the response
    [signal] gives for the outcome, whatever cache is behind the interface;
    each of the five outcomes is the outcome of some answer of [GetOTP];
    and [signal] sends two different outcomes to two different responses,
    where a response is the status code together with the JSON object. *)
Theorem validateOTP_signal_distinct :
  (∀ (C : Type) (I : OTPCache C) (req : ValidateOTPRequest) (now : time.Time)
     (w : world (C:=C)),
     (validateOTP (inr req) now w).1
     = signal (outcome_of (GetOTP now (vPhone req) (otpCache w)).2 (vOtp req)))
  ∧ (∀ o, ∃ got req now,
       (validateOTP (OTPCache0:=stubCache got) (inr req) now (mkWorld tt [])).1
       = signal o)
  ∧ (∀ o1 o2, o1 ≠ o2 → signal o1 ≠ signal o2).
Proof.
  split_and!.
  - intros C I req now w. rewrite validateOTP_run. cbn zeta.
    by destruct (outcome_of _ _).
  - intros o.
    exists (match o with
            | Valid | Incorrect => ("4821"%string, None)
            | NotFound => (""%string, Some ErrOTPNotFound)
            | Expired => (""%string, Some ErrOTPExpired)
            | InternalError => (""%string, Some (ErrOther "unavailable"))
            end).
    exists (mkValidateOTPRequest
              (match o with Valid => "4821" | _ => "1284" end) "+1555"), 0.
    by destruct o.
  - intros o1 o2 Hne Heq. apply Hne. clear Hne.
    destruct o1, o2; try reflexivity; exfalso;
      first [ apply (f_equal code) in Heq; vm_compute in Heq; discriminate
            | apply (f_equal (λ r, obj r !! "valid"%string)) in Heq;
              vm_compute in Heq; discriminate ].
Qed.

Lemma validateOTP_signal_distinct_witness :
  signal Valid ≠ signal Incorrect ∧ signal Expired ≠ signal NotFound.
Proof.
  destruct validateOTP_signal_distinct as (_ & _ & Hinj).
  split; apply Hinj; discriminate.
Defined.

(** A log line found in a trace extended by cache calls alone was in the
    trace before. *)
Ltac no_new_log :=
  rewrite elem_of_app; intros [?|Hin]; [done|];
  repeat (apply elem_of_cons in Hin as [Hin|Hin]; [discriminate|]);
  by apply elem_of_nil in Hin.

(** C10. On the in-memory cache [SetOTP] and [DeleteOTP] return a nil
    error on every input and every table, so [validateOTP] never logs a
    failed delete: a log line in its trace was already there before the
    call.  When the submitted code equals the code of a live entry the
    handler answers Valid, having called [GetOTP] and then [DeleteOTP] and
    nothing else. *)
Theorem SetOTP_DeleteOTP_nil :
  (∀ now phone code (c : MemoryOTPCache), (SetOTP now phone code c).2 = None)
  ∧ (∀ phone (c : MemoryOTPCache), (DeleteOTP phone c).2 = None)
  ∧ (∀ bind now (w : world (C:=MemoryOTPCache)) msg,
       EvLogPrintf msg ∈ trace (validateOTP bind now w).2 →
       EvLogPrintf msg ∈ trace w)
  ∧ (∀ req now (w : world (C:=MemoryOTPCache)) e,
       store (otpCache w) !! vPhone req = Some e →
       now ≤ expiresAt e →
       otp e = vOtp req →
       validateOTP (inr req) now w
       = (signal Valid,
          mkWorld (DeleteOTP (vPhone req) (otpCache w)).1
            (trace w ++ [EvGetOTP (vPhone req); EvDeleteOTP (vPhone req)]))).
Proof.
  split_and!; [done | done | |].
  - intros [msg0|req] now w msg; [done|].
    rewrite validateOTP_run. cbn. unfold MemGetOTP.
    destruct (store (otpCache w) !! vPhone req) as [e|]; cbn;
      [destruct (time.After now (expiresAt e)); cbn;
       [|unfold outcome_of; cbn;
         destruct (String.eqb (otp e) (vOtp req)); cbn]|];
      no_new_log.
  - intros req now w e Hsome Hlive Hcode.
    by rewrite (validateOTP_mem_valid req now w e).
Qed.

Lemma SetOTP_DeleteOTP_nil_witness :
  let c := (SetOTP 0 "+15551234567" "4821" NewMemoryOTPCache).1 in
  validateOTP (inr (mkValidateOTPRequest "4821" "+15551234567")) 300000000000
    (mkWorld c [])
  = (signal Valid,
     mkWorld NewMemoryOTPCache
       [EvGetOTP "+15551234567"; EvDeleteOTP "+15551234567"]).
Proof.
  intros c.
  destruct SetOTP_DeleteOTP_nil as (_ & _ & _ & Hvalid).
  rewrite (Hvalid _ 300000000000 (mkWorld c []) (mkEntry "4821" 300000000000));
    [reflexivity | reflexivity | cbn; lia | reflexivity].
Defined.

(** ** The code generator *)

(** [strconv.Itoa] on 1000..9999: four digits that read back as the
    number.  The 9000 numbers are checked one by one. *)
Lemma Itoa_four_digits (n : Z) :
  1000 ≤ n ≤ 9999 →
  four_digit_code (strconv.Itoa n) = true
  ∧ decimal_value 0 (strconv.Itoa n) = n.
Proof.
  intros Hn.
  assert (Hall : forallb (λ n, four_digit_code (strconv.Itoa n)
                               && (decimal_value 0 (strconv.Itoa n) =? n))
                   (seqZ 1000 9000) = true) by (vm_compute; reflexivity).
  rewrite forallb_forall in Hall.
  specialize (Hall n). rewrite <- list_elem_of_In, elem_of_seqZ in Hall.
  apply andb_true_iff in Hall as [Hfmt Hval]; [|lia].
  split; [done|]. by apply Z.eqb_eq.
Qed.

Lemma secure_num_range (b : byte * byte) : 1000 ≤ secure_num b ≤ 9999.
Proof.
  unfold secure_num.
  pose proof (Z.mod_pos_bound (Uint16 b) 9000). lia.
Qed.

(** C6. Whatever [crand.Read] gave, two bytes or an error, and whatever
    number in [0, 9000) the fallback [Intn(9000)] draws, the code
    [generateSecureOTP] returns is a string of exactly four ASCII digits
    whose decimal value lies in [1000, 9999]; that value is
    [Uint16(b) % 9000 + 1000] on the crypto path and [1000 + Intn(9000)]
    on the fallback path.  The function returns a string and no error:
    when the crypto source fails the result is the fallback code. *)
Theorem generateSecureOTP_four_digits (crand_Read : option (byte * byte))
    (fallback_Intn : Z) :
  0 ≤ fallback_Intn < 9000 →
  four_digit_code (generateSecureOTP crand_Read fallback_Intn) = true
  ∧ decimal_value 0 (generateSecureOTP crand_Read fallback_Intn)
    = match crand_Read with
      | Some b => secure_num b
      | None => 1000 + fallback_Intn
      end
  ∧ generateSecureOTP None fallback_Intn
    = strconv.Itoa (1000 + fallback_Intn).
Proof.
  intros Hfb. destruct crand_Read as [b|]; cbn [generateSecureOTP].
  - pose proof (secure_num_range b) as Hb.
    destruct (Itoa_four_digits (secure_num b) Hb) as [Hfmt Hval]. done.
  - destruct (Itoa_four_digits (1000 + fallback_Intn)) as [Hfmt Hval]; [lia|].
    done.
Qed.

Lemma generateSecureOTP_four_digits_witness :
  generateSecureOTP (Some (Byte.xff, Byte.xff)) 0 = "3535"%string
  ∧ generateSecureOTP None 8999 = "9999"%string
  ∧ four_digit_code (generateSecureOTP None 8999) = true.
Proof.
  destruct (generateSecureOTP_four_digits None 8999) as (Hfmt & _ & _); [lia|].
  split_and!; [reflexivity | reflexivity | exact Hfmt].
Defined.

(** ** The distribution of the crypto path *)

Section bytes.
Implicit Types (b : byte) (p : byte * byte).

Lemma byte_val_range b : 0 ≤ byte_val b < 256.
Proof.
  unfold byte_val. pose proof (Byte.to_N_bounded b) as Hb. lia.
Qed.

Lemma byte_val_inj b1 b2 : byte_val b1 = byte_val b2 → b1 = b2.
Proof.
  unfold byte_val. intros Heq%(inj Z.of_N).
  pose proof (Byte.of_to_N b1) as H1. rewrite Heq, Byte.of_to_N in H1.
  congruence.
Qed.

Lemma byte_val_surj (v : Z) : 0 ≤ v < 256 → ∃ b, byte_val b = v.
Proof.
  intros Hv. destruct (Byte.of_N (Z.to_N v)) as [b|] eqn:Hof.
  - exists b. unfold byte_val. apply Byte.to_of_N in Hof. lia.
  - apply Byte.of_N_None_iff in Hof. lia.
Qed.

(** The two bytes are the high and the low digit in base 256. *)
Lemma Uint16_eq p : Uint16 p = 256 * byte_val p.1 + byte_val p.2.
Proof.
  unfold Uint16.
  pose proof (byte_val_range p.1) as H1. pose proof (byte_val_range p.2) as H2.
  rewrite Z.shiftl_mul_pow2 by lia.
  rewrite <- Z.add_nocarry_lor; [change (2 ^ 8) with 256; lia|].
  apply Z.bits_inj'. intros n Hn.
  rewrite Z.land_spec, Z.bits_0.
  destruct (Z.lt_ge_cases n 8) as [Hlow|Hhigh].
  - rewrite (Z.mul_pow2_bits_low _ 8 n Hlow). apply andb_false_r.
  - assert (Hbit : Z.testbit (byte_val p.2) n = false).
    { apply (Z.bounded_iff_bits_nonneg 8 (byte_val p.2)); [lia | lia | | done].
      change (2 ^ 8) with 256. lia. }
    by rewrite Hbit.
Qed.

Lemma Uint16_range p : 0 ≤ Uint16 p < 65536.
Proof.
  rewrite Uint16_eq.
  pose proof (byte_val_range p.1). pose proof (byte_val_range p.2). lia.
Qed.

Lemma Uint16_inj p1 p2 : Uint16 p1 = Uint16 p2 → p1 = p2.
Proof.
  rewrite !Uint16_eq. intros Heq.
  pose proof (byte_val_range p1.1). pose proof (byte_val_range p1.2).
  pose proof (byte_val_range p2.1). pose proof (byte_val_range p2.2).
  destruct p1 as [h1 l1], p2 as [h2 l2]. cbn [fst snd] in *.
  f_equal; apply byte_val_inj; lia.
Qed.

Lemma Uint16_surj (x : Z) : 0 ≤ x < 65536 → ∃ p, Uint16 p = x.
Proof.
  intros Hx.
  destruct (byte_val_surj (x `div` 256)) as [h Hh];
    [Z.div_mod_to_equations; lia|].
  destruct (byte_val_surj (x `mod` 256)) as [l Hl];
    [Z.div_mod_to_equations; lia|].
  exists (h, l). rewrite Uint16_eq. cbn [fst snd]. rewrite Hh, Hl.
  Z.div_mod_to_equations. lia.
Qed.

Lemma elem_of_all_bytes b : b ∈ all_bytes.
Proof.
  unfold all_bytes. apply list_elem_of_omap. exists (byte_val b). split.
  - apply elem_of_seqZ. pose proof (byte_val_range b). lia.
  - unfold byte_val. rewrite N2Z.id. apply Byte.of_to_N.
Qed.

Lemma NoDup_all_bytes : NoDup all_bytes.
Proof.
  apply (NoDup_fmap_1 byte_val).
  replace (byte_val <$> all_bytes) with (seqZ 0 256)
    by (vm_compute; reflexivity).
  apply NoDup_seqZ.
Qed.

Lemma elem_of_row b p :
  p ∈ (all_bytes ≫= λ b1, [(b, b1)]) ↔ p.1 = b.
Proof.
  rewrite list_elem_of_bind. split.
  - intros (b1 & ->%list_elem_of_singleton & _). done.
  - intros <-. exists p.2. split; [|apply elem_of_all_bytes].
    apply list_elem_of_singleton. by destruct p.
Qed.

Lemma elem_of_all_reads p : p ∈ all_reads.
Proof.
  unfold all_reads. apply list_elem_of_bind. exists p.1.
  split; [by apply elem_of_row | apply elem_of_all_bytes].
Qed.

Lemma NoDup_all_reads : NoDup all_reads.
Proof.
  unfold all_reads. apply NoDup_bind; [| |apply NoDup_all_bytes].
  - intros b b' p _ _ Hp%elem_of_row Hp'%elem_of_row. congruence.
  - intros b _. apply NoDup_bind; [| |apply NoDup_all_bytes].
    + intros b1 b1' p _ _ ->%list_elem_of_singleton Hp%list_elem_of_singleton.
      congruence.
    + intros b1 _. apply NoDup_singleton.
Qed.

End bytes.

(** The 16-bit numbers that are [r] modulo 9000: [r], [r + 9000], ... . *)
Lemma residue_class (r x : Z) :
  0 ≤ r < 9000 →
  (0 ≤ x < 65536 ∧ x `mod` 9000 = r)
  ↔ x ∈ (λ k, r + 9000 * k) <$> seqZ 0 (if r <? 2536 then 8 else 7).
Proof.
  intros Hr. rewrite list_elem_of_fmap. setoid_rewrite elem_of_seqZ. split.
  - intros [Hx Hmod]. exists (x `div` 9000).
    destruct (Z.ltb_spec r 2536); Z.div_mod_to_equations; lia.
  - intros (k & -> & Hk).
    destruct (Z.ltb_spec r 2536); Z.div_mod_to_equations; lia.
Qed.

Lemma length_preimages (n : Z) :
  1000 ≤ n ≤ 9999 →
  length (preimages n) = if n <? 3536 then 8%nat else 7%nat.
Proof.
  intros Hn. rewrite <- (length_fmap Uint16).
  assert (Hperm : Uint16 <$> preimages n
                  ≡ₚ (λ k, (n - 1000) + 9000 * k)
                       <$> seqZ 0 (if n - 1000 <? 2536 then 8 else 7)).
  { apply NoDup_Permutation.
    - apply NoDup_fmap_2_strong; [intros ?? _ _; apply Uint16_inj|].
      apply NoDup_filter, NoDup_all_reads.
    - apply NoDup_fmap_2_strong; [intros ?? _ _ ?; lia | apply NoDup_seqZ].
    - intros x. rewrite <- residue_class by lia.
      rewrite list_elem_of_fmap. unfold preimages.
      setoid_rewrite list_elem_of_filter. unfold secure_num. split.
      + intros (p & -> & Hp & _). pose proof (Uint16_range p). lia.
      + intros [Hx Hmod]. destruct (Uint16_surj x Hx) as [p <-].
        exists p. split_and!; [done | lia | apply elem_of_all_reads]. }
  rewrite Hperm, length_fmap, length_seqZ.
  destruct (Z.ltb_spec (n - 1000) 2536), (Z.ltb_spec n 3536); try lia; done.
Qed.

(** C2, as the code has it.  Among the 2^16 two-byte reads, the mapping
    [num = BigEndian.Uint16(b) % 9000 + 1000] sends 8 reads to each code in
    1000..3535 and 7 reads to each code in 3536..9999: every code in
    [1000, 9999] is produced, and the codes are not equally likely under
    uniformly random bytes. *)
Theorem secure_num_preimages (n : Z) :
  1000 ≤ n ≤ 9999 →
  length (preimages n) = (if n <? 3536 then 8%nat else 7%nat)
  ∧ (∀ b, b ∈ preimages n ↔ secure_num b = n)
  ∧ Z.of_nat (length all_reads) = 2 ^ 16.
Proof.
  intros Hn. split_and!.
  - by apply length_preimages.
  - intros b. unfold preimages. rewrite list_elem_of_filter.
    pose proof (elem_of_all_reads b). tauto.
  - vm_compute. reflexivity.
Qed.

Lemma secure_num_preimages_witness :
  length (preimages 4821) = 7%nat ∧ length (preimages 1234) = 8%nat.
Proof.
  destruct (secure_num_preimages 4821) as (H7 & _ & _); [lia|].
  destruct (secure_num_preimages 1234) as (H8 & _ & _); [lia|].
  split; [exact H7 | exact H8].
Defined.

(** C2, as stated, fails: the codes 1000 and 9999 are both in range and
    have 8 and 7 preimages among the 2^16 two-byte reads. *)
Lemma secure_num_not_uniform_counterexample :
  length (preimages 1000) = 8%nat
  ∧ length (preimages 9999) = 7%nat
  ∧ length (preimages 1000) ≠ length (preimages 9999).
Proof.
  assert (H8 : length (preimages 1000) = 8%nat) by (vm_compute; reflexivity).
  assert (H7 : length (preimages 9999) = 7%nat) by (vm_compute; reflexivity).
  split_and!; [done | done |]. rewrite H8, H7. discriminate.
Qed.

(** * Further properties of the cache *)

Section cache_more.
Implicit Types (c : MemoryOTPCache) (phone code : string) (now : time.Time).
Implicit Types (e : otpEntry) (order : list (string * otpEntry)).

(** A pass of the sweep, seen from a key, for a visiting order of the
    table. *)
Lemma cleanup_pass_lookup now order c phone :
  range_order (store c) order →
  store (cleanup_pass now order c) !! phone
  = match store c !! phone with
    | Some e => if time.After now (expiresAt e) then None else Some e
    | None => None
    end.
Proof.
  unfold range_order. intros Hperm. cbn. rewrite sweep_entries_lookup.
  destruct (store c !! phone) as [e|] eqn:Hsome.
  - destruct (time.After now (expiresAt e)) eqn:Hafter.
    + rewrite bool_decide_eq_true_2; [done|].
      apply Exists_exists. exists (phone, e). split; [|done].
      rewrite Hperm. by apply elem_of_map_to_list.
    + rewrite bool_decide_eq_false_2; [done|].
      intros ([phone' e'] & Hmem & Hkey & Hafter')%Exists_exists.
      cbn in Hkey, Hafter'. subst phone'.
      rewrite Hperm in Hmem. apply elem_of_map_to_list in Hmem.
      congruence.
  - by case_bool_decide.
Qed.

(** A pass keeps the entries that are not yet past their expiry. *)
Lemma cleanup_pass_filter now order c :
  range_order (store c) order →
  store (cleanup_pass now order c)
  = filter (λ pe, now ≤ expiresAt pe.2) (store c).
Proof.
  intros Horder. apply map_eq. intros phone.
  rewrite (cleanup_pass_lookup now order c phone Horder), map_lookup_filter.
  destruct (store c !! phone) as [e|]; [|done]. cbn.
  destruct (time.After now (expiresAt e)) eqn:Hafter.
  - apply After_true in Hafter. rewrite option_guard_False; [done|lia].
  - apply After_false in Hafter. by rewrite option_guard_True.
Qed.

Lemma cache_eq c1 c2 : store c1 = store c2 → c1 = c2.
Proof. destruct c1, c2. cbn. by intros ->. Qed.

End cache_more.

(** X1. What [GetOTP] answers, case by case: it returns a code with a nil
    error exactly when the key is present and the time is not after the
    expiry, and the code is then the stored one; it fails with
    [ErrOTPNotFound] exactly when the key is absent and with
    [ErrOTPExpired] exactly when the key is present and the time is after
    the expiry; it never fails with another error; the string is empty
    whenever the error is not nil; and the table is left as it was unless
    the answer is [ErrOTPExpired]. *)
Theorem GetOTP_answers (c : MemoryOTPCache) (phone : string) (now : time.Time) :
  (∀ code, (GetOTP now phone c).2 = (code, None)
           ↔ ∃ e, store c !! phone = Some e ∧ now ≤ expiresAt e ∧ otp e = code)
  ∧ ((GetOTP now phone c).2.2 = Some ErrOTPNotFound ↔ store c !! phone = None)
  ∧ ((GetOTP now phone c).2.2 = Some ErrOTPExpired
     ↔ ∃ e, store c !! phone = Some e ∧ expiresAt e < now)
  ∧ (∀ msg, (GetOTP now phone c).2.2 ≠ Some (ErrOther msg))
  ∧ ((GetOTP now phone c).2.2 ≠ None → (GetOTP now phone c).2.1 = ""%string)
  ∧ ((GetOTP now phone c).2.2 ≠ Some ErrOTPExpired → (GetOTP now phone c).1 = c).
Proof.
  cbn. unfold MemGetOTP.
  destruct (store c !! phone) as [e|] eqn:Hsome;
    [destruct (time.After now (expiresAt e)) eqn:Hafter|]; cbn;
    try apply After_true in Hafter; try apply After_false in Hafter.
  - split_and!; [intros code; split| split | split | done..].
    + done.
    + intros (e' & [= <-] & ? & _). lia.
    + done.
    + done.
    + intros _. by exists e.
    + done.
  - split_and!; [intros code; split| split | split | done..].
    + intros [= <-]. by exists e.
    + by intros (e' & [= <-] & _ & <-).
    + done.
    + done.
    + done.
    + intros (e' & [= <-] & ?). lia.
  - split_and!; [intros code; split| split | split | done..].
    + done.
    + by intros (e' & ? & _).
    + done.
    + done.
    + done.
    + by intros (e' & ? & _).
Qed.

Lemma GetOTP_answers_witness :
  let c := (SetOTP 0 "+1555" "1111" NewMemoryOTPCache).1 in
  (GetOTP 5 "+1555" c).2 = ("1111"%string, None)
  ∧ (GetOTP 5 "+1666" c).2.2 = Some ErrOTPNotFound.
Proof.
  intros c.
  destruct (GetOTP_answers c "+1555" 5) as (Hok & _).
  destruct (GetOTP_answers c "+1666" 5) as (_ & Hnone & _).
  split.
  - apply Hok. exists (mkEntry "1111" 300000000000).
    split_and!; [reflexivity | cbn; lia | reflexivity].
  - apply Hnone. reflexivity.
Defined.

(** X2. [DeleteOTP] is an idempotent removal for which a missing key is no
    error: afterwards the key is absent and every [GetOTP] for it fails
    with [ErrOTPNotFound], the other keys are as before, deleting a key
    that is absent leaves the cache as it was, and deleting twice is
    deleting once. *)
Theorem DeleteOTP_removes (c : MemoryOTPCache) (phone : string) :
  store (DeleteOTP phone c).1 !! phone = None
  ∧ (∀ now, (GetOTP now phone (DeleteOTP phone c).1).2
            = (""%string, Some ErrOTPNotFound))
  ∧ (∀ phone', phone' ≠ phone →
       store (DeleteOTP phone c).1 !! phone' = store c !! phone')
  ∧ (store c !! phone = None → DeleteOTP phone c = (c, None))
  ∧ DeleteOTP phone (DeleteOTP phone c).1 = DeleteOTP phone c.
Proof.
  split_and!.
  - cbn. apply lookup_delete_eq.
  - intros now. rewrite GetOTP_absent; [done|]. cbn. apply lookup_delete_eq.
  - intros phone' Hne. cbn. by rewrite lookup_delete_ne.
  - intros Hnone. cbn. unfold MemDeleteOTP. f_equal.
    apply cache_eq. cbn. by apply delete_id.
  - cbn. unfold MemDeleteOTP. cbn. by rewrite delete_delete_eq.
Qed.

Lemma DeleteOTP_removes_witness :
  let c := (SetOTP 0 "+1555" "1111" NewMemoryOTPCache).1 in
  store (DeleteOTP "+1555" c).1 !! "+1555"%string = None
  ∧ DeleteOTP "+1666" c = (c, None).
Proof.
  intros c.
  destruct (DeleteOTP_removes c "+1555") as (Hgone & _).
  destruct (DeleteOTP_removes c "+1666") as (_ & _ & _ & Hnoop & _).
  split; [exact Hgone | apply Hnoop; reflexivity].
Defined.

(** X3. Identifiers are independent: a [SetOTP], a [GetOTP] or a
    [DeleteOTP] for one identifier leaves the entry of every other
    identifier as it was, so what [GetOTP] answers for the other
    identifier, at any time, is the same before and after. *)
Theorem cache_ops_frame (c : MemoryOTPCache) (phone phone' code : string)
    (t now : time.Time) :
  phone' ≠ phone →
  (store (SetOTP t phone code c).1 !! phone' = store c !! phone'
   ∧ store (GetOTP t phone c).1 !! phone' = store c !! phone'
   ∧ store (DeleteOTP phone c).1 !! phone' = store c !! phone')
  ∧ ((GetOTP now phone' (SetOTP t phone code c).1).2 = (GetOTP now phone' c).2
     ∧ (GetOTP now phone' (GetOTP t phone c).1).2 = (GetOTP now phone' c).2
     ∧ (GetOTP now phone' (DeleteOTP phone c).1).2 = (GetOTP now phone' c).2).
Proof.
  intros Hne.
  assert (Hset : store (SetOTP t phone code c).1 !! phone' = store c !! phone').
  { cbn. by rewrite lookup_insert_ne. }
  assert (Hget : store (GetOTP t phone c).1 !! phone' = store c !! phone').
  { cbn. unfold MemGetOTP. destruct (store c !! phone) as [e|]; [|done].
    destruct (time.After t (expiresAt e)); [|done].
    cbn. by rewrite lookup_delete_ne. }
  assert (Hdel : store (DeleteOTP phone c).1 !! phone' = store c !! phone').
  { cbn. by rewrite lookup_delete_ne. }
  split; [done|].
  assert (Hread : ∀ c1 c2 : MemoryOTPCache,
            store c1 !! phone' = store c2 !! phone' →
            (GetOTP now phone' c1).2 = (GetOTP now phone' c2).2).
  { intros c1 c2 Heq. cbn. unfold MemGetOTP. rewrite Heq.
    destruct (store c2 !! phone') as [e|]; [|done].
    by destruct (time.After now (expiresAt e)). }
  split_and!; by apply Hread.
Qed.

Lemma cache_ops_frame_witness :
  let c := (SetOTP 0 "+1555" "1111" NewMemoryOTPCache).1 in
  (GetOTP 5 "+1555" (SetOTP 3 "+1666" "2222" c).1).2
  = (GetOTP 5 "+1555" c).2.
Proof.
  intros c.
  destruct (cache_ops_frame c "+1666" "+1555" "2222" 3 5) as (_ & Hread & _).
  - discriminate.
  - exact Hread.
Defined.

(** X4. A read does not consume: when [GetOTP] returns a code the cache is
    left as it was, and a [GetOTP] at the same or any earlier time returns
    the same code again.  When [GetOTP] fails, whether with
    [ErrOTPNotFound] or [ErrOTPExpired], every later [GetOTP] for the key
    fails with [ErrOTPNotFound].  In every case a second call at the same
    time leaves the table as the first call left it. *)
Theorem GetOTP_repeat (c : MemoryOTPCache) (phone : string) (now : time.Time) :
  (∀ code now1, (GetOTP now phone c).2 = (code, None) → now1 ≤ now →
     (GetOTP now phone c).1 = c
     ∧ GetOTP now1 phone (GetOTP now phone c).1 = (c, (code, None)))
  ∧ ((GetOTP now phone c).2.2 ≠ None →
       ∀ now2, (GetOTP now2 phone (GetOTP now phone c).1).2
               = (""%string, Some ErrOTPNotFound))
  ∧ (GetOTP now phone (GetOTP now phone c).1).1 = (GetOTP now phone c).1.
Proof.
  cbn. unfold MemGetOTP.
  destruct (store c !! phone) as [e|] eqn:Hsome;
    [destruct (time.After now (expiresAt e)) eqn:Hafter|]; cbn.
  - rewrite lookup_delete_eq. split_and!; done.
  - rewrite Hsome, Hafter. split_and!; [|done..].
    intros code now1 [= <-] Hle. split; [done|].
    apply After_false in Hafter.
    assert (Hafter1 : time.After now1 (expiresAt e) = false)
      by (apply After_false; lia).
    by rewrite Hafter1.
  - rewrite Hsome. split_and!; done.
Qed.

Lemma GetOTP_repeat_witness :
  let c := (SetOTP 0 "+1555" "1111" NewMemoryOTPCache).1 in
  GetOTP 3 "+1555" (GetOTP 5 "+1555" c).1 = (c, ("1111"%string, None))
  ∧ (GetOTP 9 "+1666" (GetOTP 5 "+1666" c).1).2
    = (""%string, Some ErrOTPNotFound).
Proof.
  intros c.
  destruct (GetOTP_repeat c "+1555" 5) as (Hagain & _).
  destruct (GetOTP_repeat c "+1666" 5) as (_ & Hfail & _).
  split.
  - apply (Hagain "1111"%string 3); [reflexivity | lia].
  - apply Hfail. discriminate.
Defined.

(** X5. The lifetime of a code is five minutes, both ends included: after
    [SetOTP] at time [t], a [GetOTP] at time [now] returns the code when
    [now] is at most [t] plus 300 000 000 000 nanoseconds, and fails with
    [ErrOTPExpired] from the next nanosecond on, whatever the table held
    before. *)
Theorem SetOTP_lifetime (c : MemoryOTPCache) (phone code : string)
    (t now : time.Time) :
  otpExpiration = 300000000000
  ∧ (GetOTP now phone (SetOTP t phone code c).1).2
    = if bool_decide (now ≤ t + 300000000000)
      then (code, None) else (""%string, Some ErrOTPExpired).
Proof.
  split; [reflexivity|]. cbn. unfold MemGetOTP. cbn.
  rewrite lookup_insert_eq. cbn.
  change (time.Add t otpExpiration) with (t + 300000000000).
  case_bool_decide as Hle.
  - apply After_false in Hle. by rewrite Hle.
  - assert (Hafter : time.After now (t + 300000000000) = true)
      by (apply After_true; lia).
    by rewrite Hafter.
Qed.

(** X6. A pass of the sweep keeps exactly the entries whose expiry is not
    before the time of the pass: the table after it is the table before
    it filtered by [now <= expiresAt].  The result does not depend on the
    order in which the range loop visits the entries, and it is a part of
    the table before the pass. *)
Theorem cleanup_pass_is_filter (now : time.Time)
    (order order' : list (string * otpEntry)) (c : MemoryOTPCache) :
  range_order (store c) order →
  range_order (store c) order' →
  store (cleanup_pass now order c)
  = filter (λ pe, now ≤ expiresAt pe.2) (store c)
  ∧ cleanup_pass now order c = cleanup_pass now order' c
  ∧ store (cleanup_pass now order c) ⊆ store c.
Proof.
  intros Horder Horder'.
  pose proof (cleanup_pass_filter now order c Horder) as Hfilter.
  split_and!.
  - done.
  - apply cache_eq. rewrite Hfilter.
    by rewrite (cleanup_pass_filter now order' c Horder').
  - rewrite Hfilter. apply map_filter_subseteq.
Qed.

Lemma cleanup_pass_is_filter_witness :
  let c := mkCache (<["+1" := mkEntry "1111" 10]>
                      (<["+2" := mkEntry "2222" 100]> ∅)) in
  cleanup_pass 50 (map_to_list (store c)) c
  = cleanup_pass 50 (reverse (map_to_list (store c))) c.
Proof.
  intros c.
  destruct (cleanup_pass_is_filter 50 (map_to_list (store c))
              (reverse (map_to_list (store c))) c) as (_ & Heq & _).
  - unfold range_order. reflexivity.
  - unfold range_order. apply reverse_Permutation.
  - exact Heq.
Defined.

(** X7. Passes of the sweep compose: a pass at time [now2] that follows a
    pass at an earlier or equal time [now1] leaves the table a single pass
    at [now2] leaves, and a pass repeated at the same time changes
    nothing. *)
Theorem cleanup_pass_twice (now1 now2 : time.Time)
    (order1 order2 order : list (string * otpEntry)) (c : MemoryOTPCache) :
  now1 ≤ now2 →
  range_order (store c) order1 →
  range_order (store (cleanup_pass now1 order1 c)) order2 →
  range_order (store c) order →
  cleanup_pass now2 order2 (cleanup_pass now1 order1 c)
  = cleanup_pass now2 order c
  ∧ (now2 = now1 →
     cleanup_pass now2 order2 (cleanup_pass now1 order1 c)
     = cleanup_pass now1 order1 c).
Proof.
  intros Hle Horder1 Horder2 Horder.
  assert (Hboth : cleanup_pass now2 order2 (cleanup_pass now1 order1 c)
                  = cleanup_pass now2 order c).
  { apply cache_eq, map_eq. intros phone.
    rewrite (cleanup_pass_lookup now2 order2 _ phone Horder2).
    rewrite (cleanup_pass_lookup now1 order1 _ phone Horder1).
    rewrite (cleanup_pass_lookup now2 order _ phone Horder).
    destruct (store c !! phone) as [e|]; [|done].
    destruct (time.After now1 (expiresAt e)) eqn:H1.
    - apply After_true in H1.
      assert (H2 : time.After now2 (expiresAt e) = true)
        by (apply After_true; lia).
      by rewrite H2.
    - done. }
  split; [done|]. intros ->. rewrite Hboth.
  apply cache_eq. rewrite !cleanup_pass_filter; done.
Qed.

Lemma cleanup_pass_twice_witness :
  let c := mkCache (<["+1" := mkEntry "1111" 10]>
                      (<["+2" := mkEntry "2222" 100]> ∅)) in
  let c1 := cleanup_pass 50 (map_to_list (store c)) c in
  cleanup_pass 200 (map_to_list (store c1)) c1 = NewMemoryOTPCache.
Proof.
  intros c c1.
  destruct (cleanup_pass_twice 50 200 (map_to_list (store c))
              (map_to_list (store c1)) (map_to_list (store c)) c)
    as (Heq & _).
  - lia.
  - unfold range_order. reflexivity.
  - unfold range_order. reflexivity.
  - unfold range_order. reflexivity.
  - subst c1. rewrite Heq. reflexivity.
Defined.

(** X8. The sweep is invisible to successful reads: for a time [now'] not
    before the time [now] of a pass, [GetOTP] returns a code after the
    pass exactly when it returns that code without the pass.  What the
    pass changes is the failure: an entry it removed is reported as
    [ErrOTPNotFound] where it would have been [ErrOTPExpired], and right
    after a pass, at the time of the pass, no [GetOTP] fails with
    [ErrOTPExpired]. *)
Theorem cleanup_pass_reads (now now' : time.Time)
    (order : list (string * otpEntry)) (c : MemoryOTPCache) (phone : string) :
  range_order (store c) order →
  now ≤ now' →
  (∀ code, (GetOTP now' phone (cleanup_pass now order c)).2 = (code, None)
           ↔ (GetOTP now' phone c).2 = (code, None))
  ∧ ((GetOTP now' phone (cleanup_pass now order c)).2.2 ≠ None ↔
     (GetOTP now' phone c).2.2 ≠ None)
  ∧ (GetOTP now phone (cleanup_pass now order c)).2.2 ≠ Some ErrOTPExpired.
Proof.
  intros Horder Hle. cbn [GetOTP MemoryOTPCache_OTPCache]. unfold MemGetOTP.
  rewrite (cleanup_pass_lookup now order c phone Horder).
  destruct (store c !! phone) as [e|]; [|done].
  destruct (time.After now (expiresAt e)) eqn:Hswept.
  - apply After_true in Hswept.
    assert (Hafter : time.After now' (expiresAt e) = true)
      by (apply After_true; lia).
    rewrite Hafter. cbn. split_and!; [|done..]. intros code. done.
  - rewrite Hswept. destruct (time.After now' (expiresAt e)); cbn; done.
Qed.

Lemma cleanup_pass_reads_witness :
  let c := mkCache (<["+1" := mkEntry "1111" 10]>
                      (<["+2" := mkEntry "2222" 100]> ∅)) in
  (GetOTP 60 "+2" (cleanup_pass 50 (map_to_list (store c)) c)).2
  = ("2222"%string, None).
Proof.
  intros c.
  destruct (cleanup_pass_reads 50 60 (map_to_list (store c)) c "+2")
    as (Hread & _).
  - unfold range_order. reflexivity.
  - lia.
  - apply Hread. reflexivity.
Defined.

(** * Further properties of the handlers *)

(** X9. On the in-memory cache [validateOTP] never answers 500; it never
    adds an entry or changes one (the table after it is a part of the
    table before); it leaves the cache as it was unless it answers Valid
    or Expired; and a request that does not bind is answered 400 with the
    binding error, without any call to the cache. *)
Theorem validateOTP_mem_effects (bind : string + ValidateOTPRequest)
    (now : time.Time) (w : world (C:=MemoryOTPCache)) :
  code (validateOTP bind now w).1 ≠ StatusInternalServerError
  ∧ store (otpCache (validateOTP bind now w).2) ⊆ store (otpCache w)
  ∧ ((validateOTP bind now w).1 ≠ signal Valid →
     (validateOTP bind now w).1 ≠ signal Expired →
     otpCache (validateOTP bind now w).2 = otpCache w)
  ∧ (∀ msg, validateOTP (inl msg) now w
            = (JSON StatusBadRequest
                 {[ "valid" := JBool false; "error" := JString msg ]}, w)).
Proof.
  split_and!; [| | |done].
  - destruct bind as [msg|req]; [done|].
    rewrite validateOTP_run. cbn. unfold MemGetOTP.
    destruct (store (otpCache w) !! vPhone req) as [e|]; [|done].
    destruct (time.After now (expiresAt e)); [done|].
    unfold outcome_of. cbn. by destruct (String.eqb (otp e) (vOtp req)).
  - destruct (validateOTP_mem_store bind now w) as [->|[phone ->]];
      [done | apply delete_subseteq].
  - destruct bind as [msg|req]; [done|].
    rewrite validateOTP_run. cbn. unfold MemGetOTP.
    destruct (store (otpCache w) !! vPhone req) as [e|]; [|done].
    destruct (time.After now (expiresAt e)); [done|].
    unfold outcome_of. cbn. by destruct (String.eqb (otp e) (vOtp req)).
Qed.

Lemma validateOTP_mem_effects_witness :
  let c := (SetOTP 0 "+1555" "1111" NewMemoryOTPCache).1 in
  otpCache (validateOTP (inr (mkValidateOTPRequest "2222" "+1555")) 5
              (mkWorld c [])).2 = c.
Proof.
  intros c.
  destruct (validateOTP_mem_effects
              (inr (mkValidateOTPRequest "2222" "+1555")) 5 (mkWorld c []))
    as (_ & _ & Hsame & _).
  apply Hsame.
  - intros Heq. apply (f_equal (λ r, obj r !! "valid"%string)) in Heq.
    vm_compute in Heq. discriminate.
  - intros Heq. apply (f_equal code) in Heq. vm_compute in Heq. discriminate.
Defined.

(** X10. A validation for an entry that is past its expiry answers Expired,
    whatever code is submitted, the right one included, and deletes the
    entry; a validation for the same identifier that follows, with any
    code and at any time, answers NotFound. *)
Theorem validateOTP_expired (req : ValidateOTPRequest) (now : time.Time)
    (w : world (C:=MemoryOTPCache)) (e : otpEntry) :
  store (otpCache w) !! vPhone req = Some e →
  expiresAt e < now →
  validateOTP (inr req) now w
  = (signal Expired,
     mkWorld (mkCache (delete (vPhone req) (store (otpCache w))))
       (trace w ++ [EvGetOTP (vPhone req)]))
  ∧ (∀ code now2,
       (validateOTP (inr (mkValidateOTPRequest code (vPhone req))) now2
          (validateOTP (inr req) now w).2).1
       = signal NotFound).
Proof.
  intros Hsome Hlate.
  assert (Hrun : validateOTP (inr req) now w
                 = (signal Expired,
                    mkWorld (mkCache (delete (vPhone req) (store (otpCache w))))
                      (trace w ++ [EvGetOTP (vPhone req)]))).
  { rewrite validateOTP_run.
    by rewrite (GetOTP_expired now _ _ e Hsome Hlate). }
  split; [done|]. intros code now2. rewrite Hrun.
  rewrite validateOTP_mem_absent; [done|]. cbn. apply lookup_delete_eq.
Qed.

Lemma validateOTP_expired_witness :
  let c := (SetOTP 0 "+1555" "1111" NewMemoryOTPCache).1 in
  let r := validateOTP (inr (mkValidateOTPRequest "1111" "+1555")) 300000000001
             (mkWorld c []) in
  r.1 = signal Expired ∧ otpCache r.2 = NewMemoryOTPCache.
Proof.
  intros c r.
  destruct (validateOTP_expired (mkValidateOTPRequest "1111" "+1555")
              300000000001 (mkWorld c []) (mkEntry "1111" 300000000000))
    as (Hrun & _).
  - reflexivity.
  - cbn. lia.
  - subst r. rewrite Hrun. split; reflexivity.
Defined.

(** X11. Issue, then validate.  When the delivery succeeds, [generateOTP]
    on the in-memory cache answers 200, the text sent is [Your OTP is: ]
    followed by the code, and until five minutes after the issue a
    validation for the phone of the request answers Valid with that code
    and Incorrect with any other. *)
Theorem generateOTP_then_validateOTP (req : OTPRequest) (o : outside)
    (w : world (C:=MemoryOTPCache)) (now : time.Time) :
  CreateMessage o (sms_params req o) = None →
  now ≤ Now o + otpExpiration →
  let otp := generateSecureOTP (crand_Read o) (fallback_Intn o) in
  let w1 := (generateOTP (inr req) o w).2 in
  (generateOTP (inr req) o w).1
  = JSON StatusOK {[ "message" := JString "OTP sent successfully" ]}
  ∧ Body (sms_params req o) = "Your OTP is: " +:+ otp
  ∧ (validateOTP (inr (mkValidateOTPRequest otp (Phone req))) now w1).1
    = signal Valid
  ∧ (∀ other, other ≠ otp →
       (validateOTP (inr (mkValidateOTPRequest other (Phone req))) now w1).1
       = signal Incorrect).
Proof.
  intros Hsent Hnow otp w1. subst w1.
  rewrite generateOTP_run, Hsent. cbn [fst snd].
  split_and!; [done | done | |].
  - rewrite (validateOTP_mem_valid _ now _
               (mkEntry otp (time.Add (Now o) otpExpiration))); [done| |done..].
    cbn. apply lookup_insert_eq.
  - intros other Hother.
    rewrite (validateOTP_mem_incorrect _ now _
               (mkEntry otp (time.Add (Now o) otpExpiration)));
      [done | | done | by cbn].
    cbn. apply lookup_insert_eq.
Qed.

Lemma generateOTP_then_validateOTP_witness :
  let o := mkOutside 0 (Some (Byte.x12, Byte.x34)) 0 "+15550000000"
             (λ _, None) in
  let w := mkWorld (C:=MemoryOTPCache) NewMemoryOTPCache [] in
  let w1 := (generateOTP (inr (mkOTPRequest "15551234567")) o w).2 in
  (validateOTP (inr (mkValidateOTPRequest "5660" "15551234567")) 7 w1).1
  = signal Valid.
Proof.
  intros o w w1.
  destruct (generateOTP_then_validateOTP (mkOTPRequest "15551234567") o w 7)
    as (_ & _ & Hvalid & _).
  - reflexivity.
  - vm_compute. discriminate.
  - exact Hvalid.
Defined.

(** X12. Issuing again replaces the code.  After two issues for the same
    phone, both delivered, the cache is the one the second issue alone
    would leave; when the two codes differ, a validation with the first
    code answers Incorrect and a validation with the second answers
    Valid, until five minutes after the second issue. *)
Theorem generateOTP_again_replaces (req : OTPRequest) (o1 o2 : outside)
    (w : world (C:=MemoryOTPCache)) (now : time.Time) :
  CreateMessage o1 (sms_params req o1) = None →
  CreateMessage o2 (sms_params req o2) = None →
  now ≤ Now o2 + otpExpiration →
  let otp1 := generateSecureOTP (crand_Read o1) (fallback_Intn o1) in
  let otp2 := generateSecureOTP (crand_Read o2) (fallback_Intn o2) in
  let w2 := (generateOTP (inr req) o2 (generateOTP (inr req) o1 w).2).2 in
  otpCache w2 = otpCache (generateOTP (inr req) o2 w).2
  ∧ (validateOTP (inr (mkValidateOTPRequest otp2 (Phone req))) now w2).1
    = signal Valid
  ∧ (otp1 ≠ otp2 →
     (validateOTP (inr (mkValidateOTPRequest otp1 (Phone req))) now w2).1
     = signal Incorrect).
Proof.
  intros Hsent1 Hsent2 Hnow otp1 otp2 w2. subst w2.
  rewrite !generateOTP_run, Hsent1, Hsent2. cbn [fst snd otpCache].
  split_and!.
  - apply cache_eq. cbn. by rewrite insert_insert_eq.
  - rewrite (validateOTP_mem_valid _ now _
               (mkEntry otp2 (time.Add (Now o2) otpExpiration))); [done| |done..].
    cbn. apply lookup_insert_eq.
  - intros Hdiff.
    rewrite (validateOTP_mem_incorrect _ now _
               (mkEntry otp2 (time.Add (Now o2) otpExpiration)));
      [done | | done | by cbn].
    cbn. apply lookup_insert_eq.
Qed.

Lemma generateOTP_again_replaces_witness :
  let o1 := mkOutside 0 (Some (Byte.x12, Byte.x34)) 0 "+15550000000"
              (λ _, None) in
  let o2 := mkOutside 9 None 821 "+15550000000" (λ _, None) in
  let w := mkWorld (C:=MemoryOTPCache) NewMemoryOTPCache [] in
  let req := mkOTPRequest "15551234567" in
  let w2 := (generateOTP (inr req) o2 (generateOTP (inr req) o1 w).2).2 in
  (validateOTP (inr (mkValidateOTPRequest "5660" "15551234567")) 10 w2).1
  = signal Incorrect
  ∧ (validateOTP (inr (mkValidateOTPRequest "1821" "15551234567")) 10 w2).1
    = signal Valid.
Proof.
  intros o1 o2 w req w2.
  destruct (generateOTP_again_replaces req o1 o2 w 10)
    as (_ & Hnew & Hold).
  - reflexivity.
  - reflexivity.
  - vm_compute. discriminate.
  - split; [apply Hold; discriminate | exact Hnew].
Defined.

(** X13. The number the message goes to always starts with [+]: it is the
    phone of the request when that starts with [+] already, and the phone
    with a [+] put in front otherwise.  The sender is the value of
    [TWILLIO_PHONE], and on a bound request the first call [generateOTP]
    makes is the send of this message. *)
Theorem sms_params_E164 {C : Type} `{!OTPCache C} (req : OTPRequest)
    (o : outside) (w : world (C:=C)) :
  String.prefix "+" (To (sms_params req o)) = true
  ∧ (String.prefix "+" (Phone req) = true → To (sms_params req o) = Phone req)
  ∧ (String.prefix "+" (Phone req) = false →
     To (sms_params req o) = "+" +:+ Phone req)
  ∧ From (sms_params req o) = TWILLIO_PHONE o
  ∧ ∃ rest, trace (generateOTP (inr req) o w).2
            = trace w ++ EvCreateMessage (sms_params req o) :: rest.
Proof.
  unfold sms_params. cbn [To From].
  split_and!.
  - destruct (String.prefix "+" (Phone req)) eqn:Hpre; cbn [negb]; [done|].
    cbn. by destruct (Phone req).
  - by intros ->.
  - by intros ->.
  - done.
  - rewrite generateOTP_run. cbn zeta.
    destruct (CreateMessage o _); cbn [snd trace]; eauto.
Qed.

Lemma sms_params_E164_witness :
  let o := mkOutside 0 None 0 "+15550000000" (λ _, None) in
  To (sms_params (mkOTPRequest "15551234567") o) = "+15551234567"%string
  ∧ To (sms_params (mkOTPRequest "+15551234567") o) = "+15551234567"%string.
Proof.
  intros o.
  destruct (sms_params_E164 (C:=MemoryOTPCache) (mkOTPRequest "15551234567") o
              (mkWorld NewMemoryOTPCache [])) as (_ & _ & Hadd & _).
  destruct (sms_params_E164 (C:=MemoryOTPCache) (mkOTPRequest "+15551234567") o
              (mkWorld NewMemoryOTPCache [])) as (_ & Hkeep & _).
  split; [apply Hadd; reflexivity | apply Hkeep; reflexivity].
Defined.

Lemma plus_prefix_ne (s : string) : ("+" +:+ s)%string ≠ s.
Proof.
  induction s as [|a s IH]; [done|].
  cbn in *. intros [= <- Heq]. by apply IH.
Qed.

(** X14. The code is filed under the phone as the request gave it, not
    under the number the message went to.  When the phone of the request
    does not start with [+] and the delivery succeeds, the entry is under
    the phone without the [+]; a validation that names the number the
    message was sent to answers NotFound, with any code, unless that
    number had an entry of its own before. *)
Theorem generateOTP_key_is_request_phone (req : OTPRequest) (o : outside)
    (w : world (C:=MemoryOTPCache)) (now : time.Time) (code : string) :
  String.prefix "+" (Phone req) = false →
  CreateMessage o (sms_params req o) = None →
  store (otpCache w) !! To (sms_params req o) = None →
  let w1 := (generateOTP (inr req) o w).2 in
  store (otpCache w1) !! Phone req
  = Some (mkEntry (generateSecureOTP (crand_Read o) (fallback_Intn o))
            (Now o + otpExpiration))
  ∧ store (otpCache w1) !! To (sms_params req o) = None
  ∧ (validateOTP (inr (mkValidateOTPRequest code (To (sms_params req o))))
       now w1).1
    = signal NotFound.
Proof.
  intros Hpre Hsent Hfree w1. subst w1.
  rewrite generateOTP_run, Hsent. cbn [fst snd otpCache].
  assert (Hto : To (sms_params req o) = ("+" +:+ Phone req)%string).
  { unfold sms_params. cbn [To]. by rewrite Hpre. }
  assert (Hlook : store (SetOTP (Now o) (Phone req)
                           (generateSecureOTP (crand_Read o) (fallback_Intn o))
                           (otpCache w)).1 !! To (sms_params req o) = None).
  { rewrite Hto in Hfree |- *. cbn -[String.append].
    rewrite lookup_insert_ne; [done|].
    intros Heq. by apply (plus_prefix_ne (Phone req)). }
  split_and!.
  - cbn. apply lookup_insert_eq.
  - done.
  - by rewrite validateOTP_mem_absent.
Qed.

Lemma generateOTP_key_is_request_phone_witness :
  let o := mkOutside 0 (Some (Byte.x12, Byte.x34)) 0 "+15550000000"
             (λ _, None) in
  let w := mkWorld (C:=MemoryOTPCache) NewMemoryOTPCache [] in
  let w1 := (generateOTP (inr (mkOTPRequest "15551234567")) o w).2 in
  (validateOTP (inr (mkValidateOTPRequest "5660" "+15551234567")) 7 w1).1
  = signal NotFound.
Proof.
  intros o w w1.
  destruct (generateOTP_key_is_request_phone (mkOTPRequest "15551234567") o w
              7 "5660") as (_ & _ & Hnot).
  - reflexivity.
  - reflexivity.
  - reflexivity.
  - exact Hnot.
Defined.

(** X15. On the in-memory cache [generateOTP] answers a bound request with
    200 exactly when the delivery succeeded and with 500 and the text of
    the delivery failure otherwise; it never answers that the code could
    not be stored; a request that does not bind is answered 400 and
    nothing is sent; and whenever the answer is not 200 the cache is left
    as it was. *)
Theorem generateOTP_mem_answers (bind : string + OTPRequest) (o : outside)
    (w : world (C:=MemoryOTPCache)) :
  (∀ req, bind = inr req →
     ((generateOTP bind o w).1
      = JSON StatusOK {[ "message" := JString "OTP sent successfully" ]}
      ↔ CreateMessage o (sms_params req o) = None)
     ∧ (∀ msg, CreateMessage o (sms_params req o) = Some msg →
          (generateOTP bind o w).1
          = JSON StatusInternalServerError
              {[ "error" := JString ("Failed to send OTP: " +:+ msg) ]}))
  ∧ (generateOTP bind o w).1
    ≠ JSON StatusInternalServerError
        {[ "error" := JString "Failed to store OTP" ]}
  ∧ (∀ msg, bind = inl msg →
       generateOTP bind o w
       = (JSON StatusBadRequest {[ "error" := JString msg ]}, w))
  ∧ (code (generateOTP bind o w).1 ≠ StatusOK →
     otpCache (generateOTP bind o w).2 = otpCache w).
Proof.
  destruct bind as [msg|req].
  - split_and!; try done. by intros msg' [= <-].
  - rewrite generateOTP_run. cbn zeta.
    destruct (CreateMessage o (sms_params req o)) as [msg|] eqn:Hsend;
      cbn [fst snd otpCache].
    + split_and!; try done.
      intros req' [= <-]. rewrite Hsend. split.
      * split; [by intros [=]|done].
      * by intros msg' [= <-].
    + split_and!; try done.
      intros req' [= <-]. rewrite Hsend. split; [done|]. done.
Qed.

Lemma generateOTP_mem_answers_witness :
  let o := mkOutside 0 None 0 "+15550000000" (λ _, Some "timeout"%string) in
  let w := mkWorld (C:=MemoryOTPCache) NewMemoryOTPCache [] in
  (generateOTP (inr (mkOTPRequest "15551234567")) o w).1
  = JSON StatusInternalServerError
      {[ "error" := JString "Failed to send OTP: timeout" ]}.
Proof.
  intros o w.
  destruct (generateOTP_mem_answers (inr (mkOTPRequest "15551234567")) o w)
    as (Hbound & _).
  destruct (Hbound (mkOTPRequest "15551234567") eq_refl) as (_ & Hfail).
  apply (Hfail "timeout"%string). reflexivity.
Defined.

(** * Invariants of the service *)

(** A property of entries that holds in the table and for every entry an
    issuance files holds in the table after a request: nothing but
    [generateOTP] writes an entry, and it writes the generated code with
    the expiry five minutes after its clock reading. *)
Lemma serve_map_Forall (P : otpEntry → Prop) (c : MemoryOTPCache)
    (r : request) :
  (∀ bind o, r = PostOTP bind o →
     P (mkEntry (generateSecureOTP (crand_Read o) (fallback_Intn o))
          (time.Add (Now o) otpExpiration))) →
  map_Forall (λ _ e, P e) (store c) →
  map_Forall (λ _ e, P e) (store (serve c r)).
Proof.
  intros Hnew Hall. destruct r as [bind o|bind now|now order]; cbn [serve].
  - destruct bind as [msg|req]; [done|].
    rewrite generateOTP_run. cbn zeta.
    destruct (CreateMessage o _); [done|]. cbn.
    apply map_Forall_insert_2; [|done]. by apply (Hnew (inr req) o).
  - destruct (validateOTP_mem_store bind now (mkWorld c [])) as [->|[p ->]];
      [done|].
    by apply map_Forall_delete.
  - cbn. intros phone e. rewrite sweep_entries_lookup.
    case_bool_decide; [done|]. apply Hall.
Qed.

Lemma foldl_serve_map_Forall (P : otpEntry → Prop) (rs : list request)
    (c : MemoryOTPCache) :
  Forall (λ r, ∀ bind o, r = PostOTP bind o →
                 P (mkEntry (generateSecureOTP (crand_Read o) (fallback_Intn o))
                      (time.Add (Now o) otpExpiration))) rs →
  map_Forall (λ _ e, P e) (store c) →
  map_Forall (λ _ e, P e) (store (foldl serve c rs)).
Proof.
  intros Hrs. revert c. induction Hrs as [|r rs Hr _ IH]; intros c Hall.
  - done.
  - cbn [foldl]. apply IH. by apply serve_map_Forall.
Qed.

(** X16. The table only ever holds four-digit codes.  Through any sequence
    of issuance requests, validation requests and sweep ticks in which the
    fallback draws are in the range of [Intn(9000)], a table whose codes
    are four ASCII digits with a value in 1000..9999, the empty table of a
    new cache in particular, stays such a table. *)
Theorem serve_codes_four_digits (rs : list request) (c : MemoryOTPCache) :
  Forall (λ r, match r with
               | PostOTP _ o => 0 ≤ fallback_Intn o < 9000
               | _ => True
               end) rs →
  map_Forall (λ _ e, four_digit_code (otp e) = true) (store c) →
  map_Forall (λ _ e, four_digit_code (otp e) = true)
    (store (foldl serve c rs))
  ∧ map_Forall (λ _ e, four_digit_code (otp e) = true)
      (store (foldl serve NewMemoryOTPCache rs)).
Proof.
  intros Hrs Hall.
  assert (Hnew : Forall (λ r, ∀ bind o, r = PostOTP bind o →
                   four_digit_code
                     (otp (mkEntry
                             (generateSecureOTP (crand_Read o) (fallback_Intn o))
                             (time.Add (Now o) otpExpiration))) = true) rs).
  { eapply Forall_impl; [exact Hrs|]. intros r Hr bind o ->. cbn.
    destruct (crand_Read o) as [b|]; cbn.
    - apply Itoa_four_digits, secure_num_range.
    - apply Itoa_four_digits. lia. }
  split.
  - by apply (foldl_serve_map_Forall
                (λ e, four_digit_code (otp e) = true)).
  - apply (foldl_serve_map_Forall
             (λ e, four_digit_code (otp e) = true)); [done|].
    apply map_Forall_empty.
Qed.

Lemma serve_codes_four_digits_witness :
  let o := mkOutside 0 None 821 "+15550000000" (λ _, None) in
  let rs := [PostOTP (inr (mkOTPRequest "15551234567")) o;
             PostOTPValidate (inr (mkValidateOTPRequest "0000" "15551234567")) 5]
  in
  map_Forall (λ _ e, four_digit_code (otp e) = true)
    (store (foldl serve NewMemoryOTPCache rs)).
Proof.
  intros o rs.
  destruct (serve_codes_four_digits rs NewMemoryOTPCache) as [_ Hall].
  - subst rs o. repeat constructor; cbn; lia.
  - apply map_Forall_empty.
  - exact Hall.
Defined.

(** X17. No entry outlives five minutes past the clock of the issuances.
    Through any sequence of requests and sweep ticks whose issuance
    requests read a clock of at most [T], a table whose entries all expire
    at or before [T] plus five minutes, the empty table of a new cache in
    particular, stays such a table: a validation or a sweep never extends
    an expiry. *)
Theorem serve_expiry_bound (T : time.Time) (rs : list request)
    (c : MemoryOTPCache) :
  Forall (λ r, match r with PostOTP _ o => Now o ≤ T | _ => True end) rs →
  map_Forall (λ _ e, expiresAt e ≤ T + otpExpiration) (store c) →
  map_Forall (λ _ e, expiresAt e ≤ T + otpExpiration)
    (store (foldl serve c rs))
  ∧ map_Forall (λ _ e, expiresAt e ≤ T + otpExpiration)
      (store (foldl serve NewMemoryOTPCache rs)).
Proof.
  intros Hrs Hall.
  assert (Hnew : Forall (λ r, ∀ bind o, r = PostOTP bind o →
                   expiresAt (mkEntry
                                (generateSecureOTP (crand_Read o) (fallback_Intn o))
                                (time.Add (Now o) otpExpiration))
                   ≤ T + otpExpiration) rs).
  { eapply Forall_impl; [exact Hrs|]. intros r Hr bind o ->. cbn.
    unfold time.Add. lia. }
  split.
  - by apply (foldl_serve_map_Forall (λ e, expiresAt e ≤ T + otpExpiration)).
  - apply (foldl_serve_map_Forall (λ e, expiresAt e ≤ T + otpExpiration));
      [done|].
    apply map_Forall_empty.
Qed.

Lemma serve_expiry_bound_witness :
  let o := mkOutside 3 None 821 "+15550000000" (λ _, None) in
  let rs := [PostOTP (inr (mkOTPRequest "15551234567")) o;
             Tick 60000000000 []] in
  map_Forall (λ _ e, expiresAt e ≤ 10 + otpExpiration)
    (store (foldl serve NewMemoryOTPCache rs)).
Proof.
  intros o rs.
  destruct (serve_expiry_bound 10 rs NewMemoryOTPCache) as [_ Hall].
  - subst rs o. repeat constructor; cbn; lia.
  - apply map_Forall_empty.
  - exact Hall.
Defined.

(** X18. Requests for one identifier do not touch another: an issuance or
    a validation whose phone is not [phone], and any request that does not
    bind, leaves the entry of [phone] as it was. *)
Theorem serve_other_identifier (c : MemoryOTPCache) (r : request)
    (phone : string) :
  match r with
  | PostOTP (inr req) _ => Phone req ≠ phone
  | PostOTPValidate (inr req) _ => vPhone req ≠ phone
  | Tick _ _ => False
  | _ => True
  end →
  store (serve c r) !! phone = store c !! phone.
Proof.
  destruct r as [[msg|req] o|[msg|req] now|now order]; cbn [serve];
    intros Hother; try done.
  - rewrite generateOTP_run. cbn zeta.
    destruct (CreateMessage o _); [done|]. cbn. by rewrite lookup_insert_ne.
  - rewrite validateOTP_run. cbn. unfold MemGetOTP.
    destruct (store c !! vPhone req) as [e|]; [|done].
    destruct (time.After now (expiresAt e)); cbn.
    + by rewrite lookup_delete_ne.
    + unfold outcome_of. cbn.
      destruct (String.eqb (otp e) (vOtp req)); cbn; [|done].
      by rewrite lookup_delete_ne.
Qed.

Lemma serve_other_identifier_witness :
  let c := (SetOTP 0 "+1555" "1111" NewMemoryOTPCache).1 in
  store (serve c (PostOTPValidate
                    (inr (mkValidateOTPRequest "1111" "+1666")) 5))
    !! "+1555"%string
  = store c !! "+1555"%string.
Proof.
  intros c.
  apply (serve_other_identifier c
           (PostOTPValidate (inr (mkValidateOTPRequest "1111" "+1666")) 5)
           "+1555").
  cbn. discriminate.
Defined.

(** * The handlers over the relational store *)

(** A branch of a handler that refuses: the answer is not the 200 one, the
    conditions of the 200 answer contradict the branch, and nothing was
    written. *)
Ltac handler_refused :=
  split_and!;
  [ split;
    [ done
    | intros ?;
      repeat match goal with
             | H : ∃ _, _ |- _ => destruct H as [? H]
             | H : _ ∧ _ |- _ => destruct H as [? H]
             end;
      simplify_eq; first [done | congruence] ]
  | done
  | intros; simplify_eq; first [done | congruence] ].

Lemma four_digit_code_nonempty (s : string) :
  four_digit_code s = true → s ≠ ""%string.
Proof. by destruct s. Qed.

Section auth_handlers.
Context {D : Type} {US : auth.UserStore D}.

(** X19. [login] answers 200 exactly when the request binds, the [phone]
    cookie is there, the database finds a user with that phone, the code
    in the row is not empty and equals the submitted one, and a token
    could be signed.  An empty code in the row is refused whatever is
    submitted.  On every other answer the database is left as it was and
    no cookie is set; on 200 the row is saved with the code cleared, the
    fresh refresh token and the verified flag, and the two cookies carry
    the signed token and that same refresh token. *)
Theorem login_accepts (bind : string + auth.LoginRequest) (o : auth.outside)
    (d : D) :
  (auth.answer (auth.login bind o d)
   = JSON StatusOK {[ "message" := JString "Login successful" ]}
   ↔ ∃ req phone user token,
       bind = inr req
       ∧ auth.RequestCookie o "phone" = Some phone
       ∧ auth.WherePhoneFirst phone d = Some user
       ∧ auth.OTP user ≠ ""%string
       ∧ auth.OTP user = auth.reqOtp req
       ∧ auth.generateAccessToken o (auth.ID user) = Some token)
  ∧ (code (auth.answer (auth.login bind o d)) ≠ StatusOK →
     auth.db (auth.login bind o d) = d
     ∧ auth.effects (auth.login bind o d) = [])
  ∧ (∀ req phone user token,
       bind = inr req →
       auth.RequestCookie o "phone" = Some phone →
       auth.WherePhoneFirst phone d = Some user →
       auth.OTP user ≠ ""%string →
       auth.OTP user = auth.reqOtp req →
       auth.generateAccessToken o (auth.ID user) = Some token →
       auth.db (auth.login bind o d)
       = auth.Save
           (auth.mkUser (auth.ID user) (auth.Phone user) (auth.Email user) ""
              (auth.NewUUID o) true) d
       ∧ auth.effects (auth.login bind o d)
         = [auth.EvSetCookie
              (auth.mkCookie "access_token" token 86400 "/" "" false true);
            auth.EvSetCookie
              (auth.mkCookie "refresh_token" (auth.NewUUID o) 2592000 "/" ""
                 false true)]).
Proof.
  unfold auth.login.
  destruct bind as [msg|req]; [handler_refused|].
  destruct (auth.RequestCookie o "phone") as [phone|]; [|handler_refused].
  destruct (auth.WherePhoneFirst phone d) as [user|] eqn:Hfound;
    [|handler_refused].
  destruct (String.eqb (auth.OTP user) "") eqn:Hempty;
    [apply String.eqb_eq in Hempty; handler_refused|].
  apply String.eqb_neq in Hempty.
  destruct (String.eqb (auth.OTP user) (auth.reqOtp req)) eqn:Hcode;
    cbn [negb]; [|apply String.eqb_neq in Hcode; handler_refused].
  apply String.eqb_eq in Hcode.
  destruct (auth.generateAccessToken o (auth.ID user)) as [token|] eqn:Hsign;
    [|handler_refused].
  split_and!.
  - split; [|done]. intros _. by exists req, phone, user, token.
  - done.
  - intros; by simplify_eq.
Qed.



(** What [generateOTP] of [auth.go] leaves in the database when the
    delivery succeeds: the row, found or just created, saved with the
    code. *)
Lemma auth_generateOTP_saved (req : auth.OTPRequest) (o : auth.outside)
    (d : D) :
  auth.CreateMessage o (auth.sms_params req o) = None →
  let start :=
    match auth.WherePhoneFirst (auth.reqPhone req) d with
    | Some u => (d, u)
    | None =>
        auth.Create (auth.mkUser 0 (auth.reqPhone req) "" "" "" false) d
    end in
  auth.db (auth.generateOTP (inr req) o d)
  = auth.Save
      (auth.mkUser (auth.ID start.2) (auth.Phone start.2)
         (auth.Email start.2) (strconv.Itoa (auth.rand_Intn o + 1000))
         (auth.RefreshToken start.2) (auth.IsVerified start.2)) start.1.
Proof.
  intros Hsent start. subst start. unfold auth.generateOTP.
  change (mkParams _ _ _) with (auth.sms_params req o).
  destruct (auth.WherePhoneFirst (auth.reqPhone req) d) as [u|];
    cbn [default]; [|destruct (auth.Create _ d) as [d1 u1]];
    by rewrite Hsent.
Qed.

(** X22. Issue, then log in.  Take a database that reads its writes for
    the row of the request: after a save of a row with its key and phone,
    the lookup by the phone of the request gives that row.  After a
    [generateOTP] of [auth.go] whose delivery succeeded, a [login] that
    carries the [phone] cookie of the request is answered 200 with the
    code that was sent and 401 with [Invalid OTP] with any other code:
    [generateOTP] saved the row with the code it sent. *)
Theorem auth_generateOTP_then_login (req : auth.OTPRequest)
    (o o2 : auth.outside) (d : D) (token : string) :
  0 ≤ auth.rand_Intn o < 9000 →
  auth.CreateMessage o (auth.sms_params req o) = None →
  let otp := strconv.Itoa (auth.rand_Intn o + 1000) in
  let start :=
    match auth.WherePhoneFirst (auth.reqPhone req) d with
    | Some u => (d, u)
    | None =>
        auth.Create (auth.mkUser 0 (auth.reqPhone req) "" "" "" false) d
    end in
  let d1 := auth.db (auth.generateOTP (inr req) o d) in
  (∀ u, auth.ID u = auth.ID start.2 → auth.Phone u = auth.Phone start.2 →
        auth.WherePhoneFirst (auth.reqPhone req) (auth.Save u start.1)
        = Some u) →
  auth.RequestCookie o2 "phone" = Some (auth.reqPhone req) →
  auth.generateAccessToken o2 (auth.ID start.2) = Some token →
  auth.answer (auth.login (inr (auth.mkLoginRequest otp)) o2 d1)
  = JSON StatusOK {[ "message" := JString "Login successful" ]}
  ∧ (∀ other, other ≠ otp →
       auth.answer (auth.login (inr (auth.mkLoginRequest other)) o2 d1)
       = JSON auth.StatusUnauthorized {[ "error" := JString "Invalid OTP" ]}).
Proof.
  intros Hrange Hsent otp start d1 Hreads Hcookie Hsign.
  assert (Hotp : String.eqb otp "" = false).
  { apply String.eqb_neq, four_digit_code_nonempty.
    apply Itoa_four_digits. lia. }
  subst d1. rewrite (auth_generateOTP_saved req o d Hsent).
  fold start. fold otp.
  unfold auth.login. rewrite Hcookie.
  rewrite (Hreads
             (auth.mkUser (auth.ID start.2) (auth.Phone start.2)
                (auth.Email start.2) otp (auth.RefreshToken start.2)
                (auth.IsVerified start.2))
             eq_refl eq_refl).
  cbn [auth.OTP auth.ID auth.reqOtp]. rewrite Hotp, Hsign.
  split.
  - by rewrite String.eqb_refl.
  - intros other Hother.
    assert (Hne : String.eqb otp other = false) by by apply String.eqb_neq.
    by rewrite Hne.
Qed.

(** X23. [refreshToken] answers 200 exactly when the [refresh_token]
    cookie is there, the database finds a user with that refresh token
    and a token could be signed; it puts no other condition on the value
    of the cookie.  On every other answer the database is left as it was
    and no cookie is set.  On 200 the token is rotated: the row is saved
    with the fresh refresh token and its other fields as they were, and
    the cookies carry the signed token and that same refresh token, both
    with the secure flag. *)
Theorem refreshToken_rotates (o : auth.outside) (d : D) :
  (auth.answer (auth.refreshToken o d)
   = JSON StatusOK {[ "message" := JString "Tokens refreshed successfully" ]}
   ↔ ∃ rt user token,
       auth.RequestCookie o "refresh_token" = Some rt
       ∧ auth.WhereRefreshTokenFirst rt d = Some user
       ∧ auth.generateAccessToken o (auth.ID user) = Some token)
  ∧ (code (auth.answer (auth.refreshToken o d)) ≠ StatusOK →
     auth.db (auth.refreshToken o d) = d
     ∧ auth.effects (auth.refreshToken o d) = [])
  ∧ (∀ rt user token,
       auth.RequestCookie o "refresh_token" = Some rt →
       auth.WhereRefreshTokenFirst rt d = Some user →
       auth.generateAccessToken o (auth.ID user) = Some token →
       auth.db (auth.refreshToken o d)
       = auth.Save
           (auth.mkUser (auth.ID user) (auth.Phone user) (auth.Email user)
              (auth.OTP user) (auth.NewUUID o) (auth.IsVerified user)) d
       ∧ auth.effects (auth.refreshToken o d)
         = [auth.EvSetCookie
              (auth.mkCookie "access_token" token 86400 "/" "" true true);
            auth.EvSetCookie
              (auth.mkCookie "refresh_token" (auth.NewUUID o) 2592000 "/" ""
                 true true)]).
Proof.
  unfold auth.refreshToken.
  destruct (auth.RequestCookie o "refresh_token") as [rt|];
    [|handler_refused].
  destruct (auth.WhereRefreshTokenFirst rt d) as [user|] eqn:Hfound;
    [|handler_refused].
  destruct (auth.generateAccessToken o (auth.ID user)) as [token|] eqn:Hsign;
    [|handler_refused].
  split_and!.
  - split; [|done]. intros _. by exists rt, user, token.
  - done.
  - intros; by simplify_eq.
Qed.

(** X24. [logout] answers 200 exactly when the database finds the user of
    the request; it then saves the row with an empty refresh token and
    its other fields as they were, and expires both cookies (empty value,
    max-age -1).  Otherwise it answers 500, the database is left as it
    was and no cookie is set. *)
Theorem logout_clears (o : auth.outside) (d : D) :
  (auth.answer (auth.logout o d)
   = JSON StatusOK {[ "message" := JString "Logged out successfully" ]}
   ↔ ∃ user, auth.First (auth.ContextUserID o) d = Some user)
  ∧ (code (auth.answer (auth.logout o d)) ≠ StatusOK →
     auth.logout o d
     = auth.mkReply
         (JSON StatusInternalServerError
            {[ "error" := JString "Failed to find user" ]}) d [])
  ∧ (∀ user,
       auth.First (auth.ContextUserID o) d = Some user →
       auth.db (auth.logout o d)
       = auth.Save
           (auth.mkUser (auth.ID user) (auth.Phone user) (auth.Email user)
              (auth.OTP user) "" (auth.IsVerified user)) d
       ∧ auth.effects (auth.logout o d)
         = [auth.EvSetCookie
              (auth.mkCookie "access_token" "" (-1) "/" "" true true);
            auth.EvSetCookie
              (auth.mkCookie "refresh_token" "" (-1) "/" "" true true)]).
Proof.
  unfold auth.logout.
  destruct (auth.First (auth.ContextUserID o) d) as [user|] eqn:Hfound;
    [|handler_refused].
  split_and!.
  - split; [|done]. intros _. by exists user.
  - done.
  - intros; by simplify_eq.
Qed.

End auth_handlers.

(** X25. The access token expires a day after it is made: the [exp] claim
    [generateAccessToken] signs is the Unix second of the clock reading
    plus 86400, the max-age of the [access_token] cookie, whatever the
    fraction of the second the clock shows. *)
Theorem generateAccessToken_exp (o : auth.outside) (userID : Z) :
  auth.generateAccessToken o userID
  = auth.SignedString o
      (auth.mkClaims userID (auth.Unix (auth.Now o) + 24 * 60 * 60)).
Proof.
  unfold auth.generateAccessToken, auth.Unix, time.Add. do 2 f_equal.
  change (auth.Hour * 24) with (86400 * 1000000000).
  by rewrite Z.div_add.
Qed.

(** ** The handlers on a table of rows *)

Lemma login_accepts_witness :
  let t := [auth.mkUser 1 "15551234567" "" "4821" "" false] in
  let o := auth.mkOutside 0
             (λ n, if String.eqb n "phone" then Some "15551234567"%string
                   else None)
             1 (λ _, Some "signed"%string) "uuid-1" 821 "+15550000000"
             (λ _, None) in
  auth.answer (@auth.login auth.rows auth.rows_UserStore
                 (inr (auth.mkLoginRequest "4821")) o t)
  = JSON StatusOK {[ "message" := JString "Login successful" ]}
  ∧ auth.db (@auth.login auth.rows auth.rows_UserStore
               (inr (auth.mkLoginRequest "4821")) o t)
    = [auth.mkUser 1 "15551234567" "" "" "uuid-1" true].
Proof.
  intros t o.
  destruct (@login_accepts auth.rows auth.rows_UserStore
              (inr (auth.mkLoginRequest "4821")) o t) as (Hiff & _ & Hsave).
  split.
  - apply Hiff.
    exists (auth.mkLoginRequest "4821"), "15551234567"%string,
      (auth.mkUser 1 "15551234567" "" "4821" "" false), "signed"%string.
    split_and!; [reflexivity | reflexivity | reflexivity | discriminate
                | reflexivity | reflexivity].
  - destruct (Hsave (auth.mkLoginRequest "4821") "15551234567"%string
                (auth.mkUser 1 "15551234567" "" "4821" "" false)
                "signed"%string) as [-> _];
      [reflexivity | reflexivity | reflexivity | discriminate
      | reflexivity | reflexivity | reflexivity].
Defined.

(** The table of rows reads its writes: after a save of a row with the key
    of the row a phone lookup finds, and with that phone, the lookup finds
    the saved row. *)
Lemma rows_reads_its_writes (t : auth.rows) (phone : string)
    (user u : auth.User) :
  auth.WherePhoneFirst (UserStore := auth.rows_UserStore) phone t = Some user →
  auth.ID u = auth.ID user →
  auth.Phone u = phone →
  auth.WherePhoneFirst (UserStore := auth.rows_UserStore) phone
    (auth.Save (UserStore := auth.rows_UserStore) u t)
  = Some u.
Proof.
  cbn. intros Hfound Hid Hphone.
  assert (Hu : String.eqb (auth.Phone u) phone = true)
    by by apply String.eqb_eq.
  induction t as [|v t IH]; [done|]. cbn in Hfound |- *.
  destruct (Z.eqb_spec (auth.ID v) (auth.ID u)) as [Hsame|Hother].
  - cbn. by rewrite Hu.
  - cbn. destruct (String.eqb (auth.Phone v) phone).
    + injection Hfound as ->. congruence.
    + by apply IH.
Qed.



Lemma auth_generateOTP_then_login_witness :
  let t := [auth.mkUser 1 "15551234567" "" "" "" false] in
  let o := auth.mkOutside 0 (λ _, None) 0 (λ _, None) "uuid-0" 821
             "+15550000000" (λ _, None) in
  let o2 := auth.mkOutside 9
              (λ n, if String.eqb n "phone" then Some "15551234567"%string
                    else None)
              0 (λ _, Some "signed"%string) "uuid-1" 0 "+15550000000"
              (λ _, None) in
  let t1 := auth.db (@auth.generateOTP auth.rows auth.rows_UserStore
                       (inr (auth.mkOTPRequest "15551234567")) o t) in
  auth.answer (@auth.login auth.rows auth.rows_UserStore
                 (inr (auth.mkLoginRequest "1821")) o2 t1)
  = JSON StatusOK {[ "message" := JString "Login successful" ]}.
Proof.
  intros t o o2 t1.
  destruct (@auth_generateOTP_then_login auth.rows auth.rows_UserStore
              (auth.mkOTPRequest "15551234567") o o2 t "signed")
    as (Hok & _).
  - cbn. lia.
  - reflexivity.
  - intros u Hid Hphone.
    apply (rows_reads_its_writes t "15551234567"
             (auth.mkUser 1 "15551234567" "" "" "" false) u);
      [reflexivity | exact Hid | exact Hphone].
  - reflexivity.
  - reflexivity.
  - exact Hok.
Defined.

Lemma refreshToken_rotates_witness :
  let t := [auth.mkUser 1 "15551234567" "" "" "uuid-0" true] in
  let o := auth.mkOutside 0
             (λ n, if String.eqb n "refresh_token" then Some "uuid-0"%string
                   else None)
             0 (λ _, Some "signed"%string) "uuid-1" 0 "+15550000000"
             (λ _, None) in
  auth.db (@auth.refreshToken auth.rows auth.rows_UserStore o t)
  = [auth.mkUser 1 "15551234567" "" "" "uuid-1" true].
Proof.
  intros t o.
  destruct (@refreshToken_rotates auth.rows auth.rows_UserStore o t)
    as (_ & _ & Hsave).
  destruct (Hsave "uuid-0"%string
              (auth.mkUser 1 "15551234567" "" "" "uuid-0" true)
              "signed"%string) as [-> _];
    reflexivity.
Defined.

Lemma logout_clears_witness :
  let t := [auth.mkUser 1 "15551234567" "" "" "uuid-0" true] in
  let o := auth.mkOutside 0 (λ _, None) 1 (λ _, None) "" 0 "+15550000000"
             (λ _, None) in
  auth.db (@auth.logout auth.rows auth.rows_UserStore o t)
  = [auth.mkUser 1 "15551234567" "" "" "" true].
Proof.
  intros t o.
  destruct (@logout_clears auth.rows auth.rows_UserStore o t)
    as (_ & _ & Hsave).
  destruct (Hsave (auth.mkUser 1 "15551234567" "" "" "uuid-0" true))
    as [-> _]; reflexivity.
Defined.
